(** * scikit-gstat: variogram kernels and the GSTools adapter

    A shallow embedding of [skgstat/models.py] (the six variogram kernels
    and the [variogram] decorator) and of [skgstat/interfaces/gstools.py]
    (the registry [MODEL_MAP] and [skgstat_to_gstools]).

    Numbers.  Python floats are embedded as real numbers extended with the
    three IEEE special values.  Arithmetic on finite values is exact; the
    rules for infinities and NaN are those of IEEE 754.  Rounding, overflow,
    underflow and the sign of zero are not part of the model.

    Effects.  Python exceptions are values of an error monad; the registry,
    which [skgstat_to_gstools] updates in place, is threaded explicitly. *)

From Stdlib Require Import Reals Lra ZArith String Ascii List.
From stdpp Require Import gmap strings list fin_maps.

Open Scope R_scope.

(* ===================================================================== *)
(** ** Python runtime: exceptions and floats *)
(* ===================================================================== *)

Module Py.

(** The exceptions the two source files can raise. *)
Inductive exn : Type :=
| ZeroDivisionError
| ValueError (msg : string)
| KeyError (key : string)
| ImportError (msg : string)
| AttributeError (attr : string).

Inductive res (A : Type) : Type :=
| Ok (a : A)
| Raise (e : exn).
Arguments Ok {A} a.
Arguments Raise {A} e.

#[global] Instance res_ret : MRet res := fun A a => Ok a.
#[global] Instance res_bind : MBind res := fun A B f m =>
  match m with
  | Ok a => f a
  | Raise e => Raise e
  end.
#[global] Instance res_fmap : FMap res := fun A B f m =>
  match m with
  | Ok a => Ok (f a)
  | Raise e => Raise e
  end.

(** A float: a real number, an infinity, or not-a-number. *)
Inductive num : Type :=
| Fin (x : R)
| PInf
| NInf
| NaN.

(** The infinity whose sign is that of [a] ([a] is not zero). *)
Definition signed_inf (a : R) (positive : bool) : num :=
  if Rlt_dec 0 a then (if positive then PInf else NInf)
  else (if positive then NInf else PInf).

Definition neg (x : num) : num :=
  match x with
  | Fin a => Fin (- a)
  | PInf => NInf
  | NInf => PInf
  | NaN => NaN
  end.

Definition add (x y : num) : num :=
  match x, y with
  | NaN, _ | _, NaN => NaN
  | Fin a, Fin b => Fin (a + b)
  | PInf, NInf | NInf, PInf => NaN
  | PInf, _ | _, PInf => PInf
  | NInf, _ | _, NInf => NInf
  end.

Definition sub (x y : num) : num := add x (neg y).

Definition mul (x y : num) : num :=
  match x, y with
  | NaN, _ | _, NaN => NaN
  | Fin a, Fin b => Fin (a * b)
  | Fin a, PInf | PInf, Fin a =>
      if Req_dec_T a 0 then NaN else signed_inf a true
  | Fin a, NInf | NInf, Fin a =>
      if Req_dec_T a 0 then NaN else signed_inf a false
  | PInf, PInf | NInf, NInf => PInf
  | PInf, NInf | NInf, PInf => NInf
  end.

(** IEEE division, as NumPy scalars perform it: a zero divisor gives an
    infinity or NaN (with a warning), never an exception. *)
Definition div (x y : num) : num :=
  match x, y with
  | NaN, _ | _, NaN => NaN
  | Fin a, Fin b =>
      if Req_dec_T b 0
      then (if Req_dec_T a 0 then NaN else signed_inf a true)
      else Fin (a / b)
  | Fin _, (PInf | NInf) => Fin 0
  | PInf, Fin b => if Rle_dec 0 b then PInf else NInf
  | NInf, Fin b => if Rle_dec 0 b then NInf else PInf
  | (PInf | NInf), (PInf | NInf) => NaN
  end.

(** Division of Python floats: [float_div] raises on a zero divisor. *)
Definition truediv (x y : num) : res num :=
  match y with
  | Fin b => if Req_dec_T b 0 then Raise ZeroDivisionError else Ok (div x y)
  | _ => Ok (div x y)
  end.

Definition le (x y : num) : bool :=
  match x, y with
  | NaN, _ | _, NaN => false
  | Fin a, Fin b => if Rle_dec a b then true else false
  | NInf, _ | _, PInf => true
  | _, _ => false
  end.

Definition lt (x y : num) : bool :=
  match x, y with
  | NaN, _ | _, NaN => false
  | Fin a, Fin b => if Rlt_dec a b then true else false
  | PInf, _ | _, NInf => false
  | _, _ => true
  end.

(** [y] is an integer; [y] is an odd integer. *)
Definition is_int (y : R) : bool :=
  if Req_dec_T (IZR (Int_part y)) y then true else false.
Definition is_odd_int (y : R) : bool := is_int y && Z.odd (Int_part y).

(** C99 [pow] on finite arguments with a non-zero exponent. *)
Definition pow_fin (a b : R) : num :=
  if Rlt_dec 0 a then Fin (Rpower a b)
  else if Req_dec_T a 0 then (if Rlt_dec 0 b then Fin 0 else PInf)
  else if is_int b
       then Fin ((if Z.odd (Int_part b) then -1 else 1) * Rpower (- a) b)
       else NaN.

(** C99 [pow] (Annex F.9.4.4), which [numpy.power] applies to scalars. *)
Definition pow (x y : num) : num :=
  match x, y with
  | _, Fin b =>
      if Req_dec_T b 0 then Fin 1
      else match x with
           | Fin a => pow_fin a b
           | PInf => if Rlt_dec 0 b then PInf else Fin 0
           | NInf => if Rlt_dec 0 b
                     then (if is_odd_int b then NInf else PInf)
                     else Fin 0
           | NaN => NaN
           end
  | Fin a, NaN => if Req_dec_T a 1 then Fin 1 else NaN
  | _, NaN => NaN
  | NaN, _ => NaN
  | Fin a, PInf =>
      if Req_dec_T (Rabs a) 1 then Fin 1
      else if Rlt_dec (Rabs a) 1 then Fin 0 else PInf
  | Fin a, NInf =>
      if Req_dec_T (Rabs a) 1 then Fin 1
      else if Rlt_dec (Rabs a) 1 then PInf else Fin 0
  | (PInf | NInf), PInf => PInf
  | (PInf | NInf), NInf => Fin 0
  end.

(** [math.pow]: C [pow], except that a finite base and exponent whose
    power is NaN or infinite raise [ValueError]. *)
Definition math_pow (x y : num) : res num :=
  match x, y with
  | Fin _, Fin _ =>
      match pow x y with
      | Fin c => Ok (Fin c)
      | _ => Raise (ValueError "math domain error")
      end
  | _, _ => Ok (pow x y)
  end.

(** [math.exp]. *)
Definition math_exp (x : num) : num :=
  match x with
  | Fin a => Fin (exp a)
  | PInf => PInf
  | NInf => Fin 0
  | NaN => NaN
  end.

(** [numpy.sqrt]: NaN (with a warning) on negative numbers. *)
Definition np_sqrt (x : num) : num :=
  match x with
  | Fin a => if Rle_dec 0 a then Fin (sqrt a) else NaN
  | PInf => PInf
  | NInf => NaN
  | NaN => NaN
  end.

End Py.

Declare Scope py_scope.
Delimit Scope py_scope with py.
Bind Scope py_scope with Py.num.
Notation "x + y" := (Py.add x y) : py_scope.
Notation "x - y" := (Py.sub x y) : py_scope.
Notation "x * y" := (Py.mul x y) : py_scope.
Notation "- x" := (Py.neg x) : py_scope.
Notation "x <=? y" := (Py.le x y) : py_scope.
Notation "x <? y" := (Py.lt x y) : py_scope.
Notation "x ** y" := (Py.pow x y) (at level 30, right associativity) : py_scope.

(* ===================================================================== *)
(** ** skgstat/models.py *)
(* ===================================================================== *)

Module Models.
Import Py.
Local Open Scope py_scope.

(** The first positional argument of a decorated kernel: one lag, or an
    iterable of lags. *)
Inductive lags : Type :=
| Scalar (h : num)
| Sequence (hs : list num).

(** What a decorated kernel returns: one value, or the float array that
    [np.fromiter] builds. *)
Inductive gammas : Type :=
| Value (g : num)
| Array (gs : list num).

(** [variogram(func)]: [func] stands for the kernel applied to the
    remaining arguments, [lambda h: func(h, *new_args, **kwargs)].
    [np.fromiter] consumes the [map] iterator from left to right, so the
    first exception raised by an element propagates. *)
Definition variogram (func : num -> res num) (arg0 : lags) : res gammas :=
  match arg0 with
  | Sequence hs => Array <$> mapM func hs
  | Scalar h => Value <$> func h
  end.

(** The functions of [scipy.special] that [matern] calls.  They belong to
    SciPy, not to this repository, and are taken as a parameter. *)
Record special : Type := {
  gamma : num -> num;
  kv : num -> num -> num
}.

(** The kernels, as written under the decorators.  [@jit] compiles the
    function and leaves its meaning unchanged.  The nugget [b] (default
    [0] in Python) is always passed.  Arguments are Python floats, so
    [/] between them is [truediv]; a value produced by NumPy or SciPy is
    a NumPy scalar and divides with [div]. *)

Definition spherical (h r c0 b : num) : res num :=
  a ← truediv r (Fin 1);
  if h <=? r then
    q1 ← truediv h a;
    q2 ← truediv h a;
    Ok (b + c0 * ((Fin 1.5 * q1) - (Fin 0.5 * (q2 ** Fin 3))))
  else
    Ok (b + c0).

Definition exponential (h r c0 b : num) : res num :=
  a ← truediv r (Fin 3);
  q ← truediv h a;
  Ok (b + c0 * (Fin 1 - math_exp (- q))).

Definition gaussian (h r c0 b : num) : res num :=
  a ← truediv r (Fin 2);
  q ← truediv (h ** Fin 2) (a ** Fin 2);
  Ok (b + c0 * (Fin 1 - math_exp (- q))).

Definition cubic (h r c0 b : num) : res num :=
  a ← truediv r (Fin 1);
  if h <=? r then
    q2 ← truediv (h ** Fin 2) (a ** Fin 2);
    q3 ← truediv (h ** Fin 3) (a ** Fin 3);
    q5 ← truediv (h ** Fin 5) (a ** Fin 5);
    q7 ← truediv (h ** Fin 7) (a ** Fin 7);
    Ok (b + c0 * ((Fin 7 * q2) -
                  (Fin (35 / 4) * q3) +
                  (Fin (7 / 2) * q5) -
                  (Fin (3 / 4) * q7)))
  else
    Ok (b + c0).

Definition stable (h r c0 s b : num) : res num :=
  e ← truediv (Fin 1) s;
  let a := div r (Fin 3 ** e) in
  p ← math_pow (div h a) s;
  Ok (b + c0 * (Fin 1 - math_exp (- p))).

Definition matern (sp : special) (h r c0 s b : num) : res num :=
  a ← truediv r (Fin 2);
  Ok (b + c0 * (Fin 1 - (div (Fin 2) (gamma sp s)) *
                ((div (h * np_sqrt s) a) ** s) *
                kv sp s (Fin 2 * (div (h * np_sqrt s) a)))).

(** The public names: each kernel under [@variogram]. *)
Module Decorated.
Definition spherical (arg0 : lags) (r c0 b : num) : res gammas :=
  variogram (fun h => Models.spherical h r c0 b) arg0.
Definition exponential (arg0 : lags) (r c0 b : num) : res gammas :=
  variogram (fun h => Models.exponential h r c0 b) arg0.
Definition gaussian (arg0 : lags) (r c0 b : num) : res gammas :=
  variogram (fun h => Models.gaussian h r c0 b) arg0.
Definition cubic (arg0 : lags) (r c0 b : num) : res gammas :=
  variogram (fun h => Models.cubic h r c0 b) arg0.
Definition stable (arg0 : lags) (r c0 s b : num) : res gammas :=
  variogram (fun h => Models.stable h r c0 s b) arg0.
Definition matern (sp : special) (arg0 : lags) (r c0 s b : num)
  : res gammas :=
  variogram (fun h => Models.matern sp h r c0 s b) arg0.
End Decorated.

End Models.

(* ===================================================================== *)
(** ** skgstat/interfaces/gstools.py *)
(* ===================================================================== *)

Module Gstools.
Import Py.
Local Open Scope py_scope.

(** Keyword values: the derived floats, the integer [dim], and whatever
    else a caller forwards. *)
Inductive pyval : Type :=
| VInt (n : Z)
| VFloat (x : num)
| VStr (s : string).

(** What [Variogram.describe()] returns: the model name, a string, and
    the fitted parameters, floats, by key.  [describe["name"]] is the
    field [name]; every other subscript is a lookup in [params]. *)
Record Describe : Type := {
  name : string;
  params : gmap string num
}.

Definition getitem (describe : Describe) (key : string) : res num :=
  match params describe !! key with
  | Some x => Ok x
  | None => Raise (KeyError key)
  end.

Record Variogram : Type := {
  dim : Z;
  describe : Describe
}.

(** The [gstools] module as the adapter sees it: [__version__] and the
    attributes [getattr] can find. *)
Record gstools : Type := {
  version : string;
  attributes : list string
}.

(** The constructor call [gs_model] with the keywords [gs_kwargs],
    recorded: GSTools builds the object. *)
Record CovModel : Type := {
  cls : string;
  kwargs : gmap string pyval
}.

(** The value under ["rescale"]: a float, or one of the two functions. *)
Inductive rescale_rule : Type :=
| Constant (x : num)
| Callable (f : Describe -> res num).

(** One value of [MODEL_MAP]: a dict with key [gs_cls] and, optionally,
    [arg_map] and [rescale] ([None]: the key is absent).  [arg_map] keeps
    its insertion order, the order in which [for arg in arg_map] runs. *)
Record entry : Type := {
  gs_cls : string;
  arg_map : option (list (string * string));
  rescale : option rescale_rule
}.

Definition stable_rescale (describe : Describe) : res num :=
  shape ← getitem describe "shape";
  e ← truediv (Fin 1) shape;
  Ok (Fin 3 ** e).

Definition matern_rescale (describe : Describe) : res num :=
  smoothness ← getitem describe "smoothness";
  if (Fin 0.5 <? smoothness) && (smoothness <? Fin 10)
  then Ok (Fin 4)
  else Ok (Fin 6).

Definition MODEL_MAP : gmap string entry :=
  list_to_map [
    ("spherical",
      {| gs_cls := "Spherical"; arg_map := None; rescale := None |});
    ("exponential",
      {| gs_cls := "Exponential"; arg_map := None;
         rescale := Some (Constant (Fin 3)) |});
    ("gaussian",
      {| gs_cls := "Gaussian"; arg_map := None;
         rescale := Some (Constant (Fin 2)) |});
    ("cubic",
      {| gs_cls := "Cubic"; arg_map := None; rescale := None |});
    ("stable",
      {| gs_cls := "Stable"; arg_map := Some [("alpha", "shape")];
         rescale := Some (Callable stable_rescale) |});
    ("matern",
      {| gs_cls := "Matern"; arg_map := Some [("nu", "smoothness")];
         rescale := Some (Callable matern_rescale) |})
  ].

(** *** The version gate: [gs.__version__.split(".")[:2]], [int], [<] *)

Fixpoint split (sep : ascii) (s : string) : list string :=
  match s with
  | EmptyString => [EmptyString]
  | String c s' =>
      if Ascii.eqb c sep then EmptyString :: split sep s'
      else match split sep s' with
           | w :: ws => String c w :: ws
           | [] => [String c EmptyString]
           end
  end.

(** ASCII whitespace, which [int] strips. *)
Definition is_space (c : ascii) : bool :=
  let n := nat_of_ascii c in
  ((9 <=? n) && (n <=? 13) || (28 <=? n) && (n <=? 32))%nat.

Definition digit_of (c : ascii) : option Z :=
  let n := nat_of_ascii c in
  if ((48 <=? n) && (n <=? 57))%nat then Some (Z.of_nat n - 48)%Z else None.

(** Decimal digits; a single underscore may stand between two digits. *)
Fixpoint digits (acc : Z) (after_digit : bool) (cs : list ascii)
  : option Z :=
  match cs with
  | [] => if after_digit then Some acc else None
  | c :: cs' =>
      if Ascii.eqb c "_"
      then (if after_digit then digits acc false cs' else None)
      else match digit_of c with
           | Some d => digits (10 * acc + d)%Z true cs'
           | None => None
           end
  end.

Fixpoint lstrip (cs : list ascii) : list ascii :=
  match cs with
  | c :: cs' => if is_space c then lstrip cs' else cs
  | [] => []
  end.

Definition strip (cs : list ascii) : list ascii :=
  rev (lstrip (rev (lstrip cs))).

(** [int(s)] on an ASCII string, base 10. *)
Definition int (s : string) : res Z :=
  let invalid :=
    Raise (ValueError
             ("invalid literal for int() with base 10: '" ++ s ++ "'")) in
  match strip (list_ascii_of_string s) with
  | c :: cs =>
      if Ascii.eqb c "-" then
        match digits 0 false cs with
        | Some n => Ok (- n)%Z
        | None => invalid
        end
      else if Ascii.eqb c "+" then
        match digits 0 false cs with
        | Some n => Ok n
        | None => invalid
        end
      else
        match digits 0 false (c :: cs) with
        | Some n => Ok n
        | None => invalid
        end
  | [] => invalid
  end.

(** [xs < ys] on lists of integers: lexicographic, a proper prefix is
    smaller. *)
Fixpoint list_lt (xs ys : list Z) : bool :=
  match xs, ys with
  | [], [] => false
  | [], _ :: _ => true
  | _ :: _, [] => false
  | x :: xs', y :: ys' =>
      if (x =? y)%Z then list_lt xs' ys' else (x <? y)%Z
  end.

(** Lines 65-66. *)
Definition version_gate (gs : gstools) : res unit :=
  v ← mapM int (take 2 (split "." (version gs)));
  if list_lt v [1; 3]%Z
  then Raise (ValueError "to_gstools: GSTools v1.3 or greater requiered.")
  else Ok tt.

(** *** The translation *)

Definition setdefault {V} (key : string) (v : V) (d : gmap string V)
  : gmap string V :=
  match d !! key with
  | Some _ => d
  | None => <[key := v]> d
  end.

Definition setdefault_rescale (x : num) (e : entry) : entry :=
  match rescale e with
  | Some _ => e
  | None =>
      {| gs_cls := gs_cls e; arg_map := arg_map e;
         rescale := Some (Constant x) |}
  end.

Definition setdefault_arg_map (m : list (string * string)) (e : entry)
  : entry :=
  match arg_map e with
  | Some _ => e
  | None => {| gs_cls := gs_cls e; arg_map := Some m; rescale := rescale e |}
  end.

(** Lines 80-81: [rescale(describe) if callable(rescale) else rescale]. *)
Definition resolve_rescale (describe : Describe) (e : entry) : res num :=
  match rescale e with
  | Some (Callable f) => f describe
  | Some (Constant x) => Ok x
  | None => Raise (KeyError "rescale")
  end.

(** Lines 83-84: the loop over [arg_map]. *)
Fixpoint copy_args (describe : Describe) (args : list (string * string))
  (gs_kwargs : gmap string pyval) : res (gmap string pyval) :=
  match args with
  | [] => Ok gs_kwargs
  | (arg, key) :: rest =>
      x ← getitem describe key;
      copy_args describe rest (<[arg := VFloat x]> gs_kwargs)
  end.

Definition getattr (gs : gstools) (attr : string) : res string :=
  if bool_decide (attr ∈ attributes gs) then Ok attr
  else Raise (AttributeError attr).

(** Lines 75-87, after the registry entry has been fetched and filled. *)
Definition build (gs : gstools) (describe : Describe)
  (kwargs : gmap string pyval) (gs_describe : entry) : res CovModel :=
  sill ← getitem describe "sill";
  nugget ← getitem describe "nugget";
  let var := sill - nugget in
  len_scale ← getitem describe "effective_range";
  nugget' ← getitem describe "nugget";
  let gs_kwargs : gmap string pyval :=
    <["nugget" := VFloat nugget']>
      (<["len_scale" := VFloat len_scale]> {["var" := VFloat var]}) in
  r ← resolve_rescale describe gs_describe;
  let gs_kwargs := <["rescale" := VFloat r]> gs_kwargs in
  args ← match arg_map gs_describe with
         | Some m => Ok m
         | None => Raise (KeyError "arg_map")
         end;
  gs_kwargs ← copy_args describe args gs_kwargs;
  let gs_kwargs := kwargs ∪ gs_kwargs in
  gs_model ← getattr gs (gs_cls gs_describe);
  Ok {| cls := gs_model; kwargs := gs_kwargs |}.

(** [skgstat_to_gstools(variogram, **kwargs)].  [gs] is [None] when
    [import gstools] fails.  [MODEL_MAP] is a module global whose values
    the function updates in place ([gs_describe] is the stored dict, not
    a copy), so the registry is an argument and a result. *)
Definition skgstat_to_gstools (gs : option gstools) (variogram : Variogram)
  (kwargs : gmap string pyval) (registry : gmap string entry)
  : res CovModel * gmap string entry :=
  match gs with
  | None => (Raise (ImportError "to_gstools: GSTools not installed."),
             registry)
  | Some gs =>
      match version_gate gs with
      | Raise e => (Raise e, registry)
      | Ok _ =>
          let kwargs := setdefault "dim" (VInt (dim variogram)) kwargs in
          let describe := describe variogram in
          let name := name describe in
          match registry !! name with
          | None =>
              (Raise (ValueError
                        ("skgstat_to_gstools: model not supported: "
                           ++ name)),
               registry)
          | Some gs_describe =>
              let gs_describe := setdefault_rescale (Fin 1) gs_describe in
              let gs_describe := setdefault_arg_map [] gs_describe in
              (build gs describe kwargs gs_describe,
               <[name := gs_describe]> registry)
          end
      end
  end.

End Gstools.

(* ===================================================================== *)
(** ** Notions used in the statements, and concrete inputs *)
(* ===================================================================== *)

Module Notions.
Import Py Models Gstools.

(** SciPy returns [inf] for [kv(v, 0)] at every real order [v]: the
    modified Bessel function of the second kind has a pole at the origin. *)
Definition kv_pole (sp : special) : Prop :=
  forall v : R, kv sp (Fin v) (Fin 0) = PInf.

(** The two [setdefault] calls of lines 73-74 on one entry. *)
Definition fill_defaults (e : entry) : entry :=
  setdefault_arg_map [] (setdefault_rescale (Fin 1) e).

(** A registry that equals [MODEL_MAP] once the defaults are filled in:
    the module global at any moment of the process. *)
Definition registry_ok (registry : gmap string entry) : Prop :=
  fill_defaults <$> registry = fill_defaults <$> MODEL_MAP.

(** An installed GSTools that passes the version gate and exports the six
    model classes. *)
Definition gstools_ok (gs : gstools) : Prop :=
  version_gate gs = Ok tt /\
  Forall (fun c => c ∈ attributes gs)
    ["Spherical"; "Exponential"; "Gaussian"; "Cubic"; "Stable"; "Matern"].

(** A describe record of a registered family with every key the adapter
    reads for that family; [shape] is not zero, since [stable_rescale]
    divides by it. *)
Definition complete (describe : Describe) : Prop :=
  is_Some (MODEL_MAP !! name describe) /\
  is_Some (params describe !! "sill") /\
  is_Some (params describe !! "nugget") /\
  is_Some (params describe !! "effective_range") /\
  (name describe = "stable" ->
     exists s, params describe !! "shape" = Some s /\ s <> Fin 0) /\
  (name describe = "matern" ->
     is_Some (params describe !! "smoothness")).

(** The keywords of lines 75-79. *)
Definition base_kwargs (sill nugget effective_range : num)
  : gmap string pyval :=
  <["nugget" := VFloat nugget]>
    (<["len_scale" := VFloat effective_range]>
       {["var" := VFloat (Py.sub sill nugget)]}).

(** The call returned a model whose keyword [key] has the value [x]. *)
Definition final_keyword (result : res CovModel) (key : string) (x : pyval)
  : Prop :=
  exists m, result = Ok m /\ kwargs m !! key = Some x.



(** One call of the adapter: the imported GSTools, the variogram and the
    overrides.  [registry_after] is the registry a series of calls leaves. *)
Definition call : Type := option gstools * Variogram * gmap string pyval.

Fixpoint registry_after (calls : list call) (registry : gmap string entry)
  : gmap string entry :=
  match calls with
  | [] => registry
  | (gs, v, kw) :: rest =>
      registry_after rest (skgstat_to_gstools gs v kw registry).2
  end.

(** The GSTools keyword under which a family's shape parameter goes. *)
Definition shape_keywords (family : string) : gset string :=
  if String.eqb family "stable" then {["alpha"]}
  else if String.eqb family "matern" then {["nu"]}
  else ∅.

(** Decimal numerals: the string of a list of digits, and its value. *)
Definition digit_char (d : nat) : ascii := ascii_of_nat (48 + d).

Definition numeral (ds : list nat) : string :=
  string_of_list_ascii (map digit_char ds).

Definition number (ds : list nat) : Z :=
  fold_left (fun a d => 10 * a + Z.of_nat d)%Z ds 0%Z.

End Notions.

Module Inputs.
Import Py Models Gstools.

(** [scipy.special] at the two points the zero-lag example evaluates:
    [gamma(1) = 1] and [kv(v, 0) = inf].  Every other argument is mapped
    to NaN and is never reached there. *)
Definition scipy_at_origin : special := {|
  gamma := fun s =>
    match s with
    | Fin x => if Req_dec_T x 1 then Fin 1 else NaN
    | _ => NaN
    end;
  kv := fun _ z =>
    match z with
    | Fin x => if Req_dec_T x 0 then PInf else NaN
    | _ => NaN
    end
|}.

Definition gstools_with (v : string) : gstools := {|
  version := v;
  attributes :=
    ["Spherical"; "Exponential"; "Gaussian"; "Cubic"; "Stable"; "Matern"]
|}.

Definition describe_of (family : string) (shape : list (string * num))
  : Describe := {|
  name := family;
  params := list_to_map (shape ++ [("sill", Fin 6); ("nugget", Fin 1);
                                   ("effective_range", Fin 10)])
|}.

(** The spherical variogram of the adapter example: sill 6, nugget 1,
    effective range 10, two dimensions. *)
Definition spherical_variogram : Variogram :=
  {| dim := 2; describe := describe_of "spherical" [] |}.

Definition stable_variogram : Variogram :=
  {| dim := 2; describe := describe_of "stable" [("shape", Fin 2)] |}.

Definition matern_variogram (smoothness : R) : Variogram :=
  {| dim := 2;
     describe := describe_of "matern" [("smoothness", Fin smoothness)] |}.

Definition unknown_variogram : Variogram :=
  {| dim := 2; describe := describe_of "unknown" [] |}.

End Inputs.

(* ===================================================================== *)
(** ** Facts about floats *)
(* ===================================================================== *)

Section FloatFacts.
Import Py.
Local Open Scope py_scope.

Lemma bind_Ok {A B : Type} (a : A) (f : A -> res B) : (Ok a ≫= f) = f a.
Proof. reflexivity. Qed.

Lemma bind_Raise {A B : Type} (e : exn) (f : A -> res B) :
  (Raise e ≫= f) = Raise e.
Proof. reflexivity. Qed.

Lemma truediv_fin (a b : R) :
  b <> 0 -> truediv (Fin a) (Fin b) = Ok (Fin (a / b)).
Proof.
  intros Hb. unfold truediv, div.
  destruct (Req_dec_T b 0); [contradiction | reflexivity].
Qed.

Lemma div_fin (a b : R) : b <> 0 -> div (Fin a) (Fin b) = Fin (a / b).
Proof.
  intros Hb. unfold div.
  destruct (Req_dec_T b 0); [contradiction | reflexivity].
Qed.

Lemma le_fin_true (a b : R) : a <= b -> (Fin a <=? Fin b) = true.
Proof.
  intros H. unfold le. destruct (Rle_dec a b); [reflexivity | contradiction].
Qed.

Lemma le_fin_false (a b : R) : b < a -> (Fin a <=? Fin b) = false.
Proof.
  intros H. unfold le. destruct (Rle_dec a b); [lra | reflexivity].
Qed.

Lemma lt_fin_true (a b : R) : a < b -> (Fin a <? Fin b) = true.
Proof.
  intros H. unfold lt. destruct (Rlt_dec a b); [reflexivity | contradiction].
Qed.

Lemma lt_fin_false (a b : R) : b <= a -> (Fin a <? Fin b) = false.
Proof.
  intros H. unfold lt. destruct (Rlt_dec a b); [lra | reflexivity].
Qed.

Lemma pow_pos (a b : R) :
  0 < a -> b <> 0 -> Fin a ** Fin b = Fin (Rpower a b).
Proof.
  intros Ha Hb. unfold pow, pow_fin.
  destruct (Req_dec_T b 0); [contradiction |].
  destruct (Rlt_dec 0 a); [reflexivity | contradiction].
Qed.

Lemma pow_zero (b : R) : 0 < b -> Fin 0 ** Fin b = Fin 0.
Proof.
  intros Hb. unfold pow, pow_fin.
  destruct (Req_dec_T b 0); [lra |].
  destruct (Rlt_dec 0 0); [lra |].
  destruct (Req_dec_T 0 0); [| lra].
  destruct (Rlt_dec 0 b); [reflexivity | contradiction].
Qed.

Lemma Rpower_neq_0 (a b : R) : Rpower a b <> 0.
Proof. unfold Rpower. pose proof (exp_pos (b * ln a)). lra. Qed.

Lemma Rpower_1_l (b : R) : Rpower 1 b = 1.
Proof. unfold Rpower. rewrite ln_1, Rmult_0_r. apply exp_0. Qed.



(** NaN absorbs the tail of every kernel, [b + c0 * (1 - x)]. *)
Lemma kernel_tail_nan (b c0 : num) : b + c0 * (Fin 1 - NaN) = NaN.
Proof. destruct b, c0; reflexivity. Qed.

(** A finite zero or NaN, times infinity, is NaN. *)
Lemma zero_times_inf (x : num) :
  x = Fin 0 \/ x = NaN -> x * PInf = NaN.
Proof.
  intros [-> | ->]; [| reflexivity].
  unfold mul. destruct (Req_dec_T 0 0); [reflexivity | lra].
Qed.

(** Anything times a finite zero is a finite zero or NaN. *)
Lemma times_zero (x : num) : x * Fin 0 = Fin 0 \/ x * Fin 0 = NaN.
Proof.
  destruct x as [a | | |]; unfold mul.
  - left. f_equal. lra.
  - right. destruct (Req_dec_T 0 0); [reflexivity | lra].
  - right. destruct (Req_dec_T 0 0); [reflexivity | lra].
  - right. reflexivity.
Qed.

End FloatFacts.

(* ===================================================================== *)
(** ** The kernels at the ends of their domain *)
(* ===================================================================== *)

Section Kernels.
Import Py Models Notions.
Local Open Scope py_scope.

Variables r c0 b : R.
Hypothesis r_pos : 0 < r.

Lemma spherical_zero :
  spherical (Fin 0) (Fin r) (Fin c0) (Fin b) = Ok (Fin b).
Proof using r_pos.
  unfold spherical.
  rewrite truediv_fin, bind_Ok by lra.
  rewrite le_fin_true by lra.
  rewrite truediv_fin, !bind_Ok by lra.
  replace (0 / (r / 1)) with 0 by (field; lra).
  rewrite pow_zero by lra. simpl.
  do 2 f_equal. lra.
Qed.




Lemma stable_zero (s : R) :
  0 < s -> stable (Fin 0) (Fin r) (Fin c0) (Fin s) (Fin b) = Ok (Fin b).
Proof using r_pos.
  intros Hs. unfold stable.
  rewrite truediv_fin, bind_Ok by lra.
  assert (1 / s <> 0) as He.
  { apply Rgt_not_eq. unfold Rdiv. rewrite Rmult_1_l.
    now apply Rinv_0_lt_compat. }
  rewrite pow_pos by (lra || assumption).
  rewrite div_fin by apply Rpower_neq_0.
  assert (r / Rpower 3 (1 / s) <> 0) as Ha.
  { pose proof (Rpower_neq_0 3 (1 / s)) as Hp.
    intros H. apply (Rmult_eq_compat_r (Rpower 3 (1 / s))) in H.
    unfold Rdiv in H.
    rewrite Rmult_assoc, Rinv_l, Rmult_1_r, Rmult_0_l in H by assumption.
    lra. }
  rewrite div_fin by assumption.
  replace (0 / (r / Rpower 3 (1 / s))) with 0
    by (unfold Rdiv at 1; now rewrite Rmult_0_l).
  unfold math_pow. rewrite pow_zero by assumption. rewrite bind_Ok. simpl.
  rewrite Ropp_0, exp_0. do 2 f_equal. lra.
Qed.

Lemma spherical_sill (h : R) :
  r <= h ->
  spherical (Fin h) (Fin r) (Fin c0) (Fin b) = Ok (Fin (b + c0)).
Proof using r_pos.
  intros Hh. unfold spherical.
  rewrite truediv_fin, bind_Ok by lra.
  destruct (Rle_dec h r) as [Hle | Hgt].
  - assert (h = r) as -> by lra.
    rewrite le_fin_true by lra.
    rewrite truediv_fin, !bind_Ok by lra.
    replace (r / (r / 1)) with 1 by (field; lra).
    rewrite pow_pos, Rpower_1_l by lra. simpl.
    do 2 f_equal. lra.
  - rewrite le_fin_false by lra. reflexivity.
Qed.


(** Inside the range the polynomial branch is taken: half way to a
    range of 2, with sill 1 and no nugget, the spherical model gives
    1.5 * 0.5 - 0.5 * 0.125 = 11/16. *)
Example spherical_half_range :
  spherical (Fin 1) (Fin 2) (Fin 1) (Fin 0) = Ok (Fin (11 / 16)).
Proof.
  unfold spherical.
  rewrite truediv_fin, bind_Ok by lra.
  rewrite le_fin_true by lra.
  rewrite truediv_fin, !bind_Ok by lra.
  rewrite pow_pos by lra.
  replace 3 with (INR 3) by (simpl; lra).
  rewrite Rpower_pow by lra. simpl.
  do 2 f_equal. lra.
Qed.

(** At the effective range the exponential model has reached the
    fraction 1 - exp(-3) of the sill, about 95 percent. *)
Lemma exponential_effective_range :
  exponential (Fin r) (Fin r) (Fin c0) (Fin b)
  = Ok (Fin (b + c0 * (1 - exp (- 3)))).
Proof using r_pos.
  unfold exponential.
  rewrite truediv_fin, bind_Ok by lra.
  rewrite truediv_fin, bind_Ok by lra.
  replace (r / (r / 3)) with 3 by (field; lra).
  reflexivity.
Qed.

End Kernels.

Section Matern.
Import Py Models Notions Inputs.
Local Open Scope py_scope.

(** At zero lag the power term is zero and the Bessel term infinite: the
    product is NaN whatever [gamma] returns, and NaN reaches the result. *)
Lemma matern_zero (sp : special) (r s : R) (c0 b : num) :
  kv_pole sp -> 0 < r -> 0 < s ->
  matern sp (Fin 0) (Fin r) c0 (Fin s) b = Ok NaN.
Proof.
  intros Hkv Hr Hs. unfold matern.
  rewrite truediv_fin, bind_Ok by lra.
  unfold np_sqrt. destruct (Rle_dec 0 s); [| lra].
  change (Fin 0 * Fin (sqrt s)) with (Fin (0 * sqrt s)).
  rewrite div_fin by lra.
  replace (0 * sqrt s / (r / 2)) with 0 by (field; lra).
  rewrite pow_zero by lra.
  change (Fin 2 * Fin 0) with (Fin (2 * 0)). rewrite Rmult_0_r.
  rewrite Hkv.
  rewrite zero_times_inf by apply times_zero.
  now rewrite kernel_tail_nan.
Qed.

Lemma kv_pole_at_origin : kv_pole scipy_at_origin.
Proof.
  intros v. simpl. destruct (Req_dec_T 0 0); [reflexivity | lra].
Qed.

End Matern.

Section Decorator.
Import Py Models.

Lemma mapM_Ok_Forall2 (func : num -> res num) (hs gs : list num) :
  mapM func hs = Ok gs <-> Forall2 (fun h g => func h = Ok g) hs gs.
Proof.
  revert gs. induction hs as [| h hs IH]; intros gs; simpl.
  - split.
    + intros [= <-]. constructor.
    + intros H. inversion H. reflexivity.
  - split.
    + destruct (func h) as [g | e] eqn:Hh; [| discriminate].
      rewrite bind_Ok.
      destruct (mapM func hs) as [gs' | e] eqn:Hhs; [| discriminate].
      rewrite bind_Ok. intros [= <-].
      constructor; [assumption | now apply IH].
    + intros H. inversion H as [| ? g ? gs' Hg Hrest]; subst.
      apply IH in Hrest. now rewrite Hg, Hrest.
Qed.

Lemma variogram_Sequence (func : num -> res num) (hs gs : list num) :
  variogram func (Sequence hs) = Ok (Array gs) <->
  Forall2 (fun h g => func h = Ok g) hs gs.
Proof.
  rewrite <- mapM_Ok_Forall2. unfold variogram.
  destruct (mapM func hs) as [gs' | e]; simpl.
  - split; [intros [= <-] | intros [= <-]]; reflexivity.
  - split; discriminate.
Qed.

Lemma variogram_Scalar (func : num -> res num) (h g : num) :
  func h = Ok g -> variogram func (Scalar h) = Ok (Value g).
Proof. intros H. unfold variogram. now rewrite H. Qed.

End Decorator.

(* ===================================================================== *)
(** ** Properties of the kernels *)
(* ===================================================================== *)

Section KernelProperties.
Import Py Models Notions Inputs.
Local Open Scope py_scope.

(** C1 does not hold of the code.  [matern] has no branch for a zero lag:
    for every r > 0, c0 >= 0, s > 0 and b >= 0 it evaluates the Bessel-K
    and Gamma expression at h = 0 as at any other lag and, [kv] being
    infinite there while the power term is zero, returns NaN instead of
    the nugget b. *)
Theorem matern_zero_lag_is_nan (sp : special) (r c0 s b : R) :
  kv_pole sp -> 0 < r -> 0 <= c0 -> 0 < s -> 0 <= b ->
  Decorated.matern sp (Scalar (Fin 0)) (Fin r) (Fin c0) (Fin s) (Fin b)
  = Ok (Value NaN).
Proof.
  intros Hkv Hr _ Hs _. unfold Decorated.matern.
  apply variogram_Scalar. now apply matern_zero.
Qed.

Lemma matern_zero_lag_is_nan_witness :
  kv_pole scipy_at_origin /\ 0 < 2 /\ 0 <= 3 /\ 0 < 1 /\ 0 <= 0.5 /\
  Decorated.matern scipy_at_origin (Scalar (Fin 0))
    (Fin 2) (Fin 3) (Fin 1) (Fin 0.5)
  = Ok (Value NaN).
Proof.
  assert (kv_pole scipy_at_origin) as Hkv by apply kv_pole_at_origin.
  assert (0 < 2) as H1 by lra.
  assert (0 <= 3) as H2 by lra.
  assert (0 < 1) as H3 by lra.
  assert (0 <= 0.5) as H4 by lra.
  repeat split; try assumption.
  exact (matern_zero_lag_is_nan scipy_at_origin 2 3 1 0.5 Hkv H1 H2 H3 H4).
Defined.

(** C1 at one input: with r = 1, c0 = 1, s = 1 and nugget b = 0 the
    kernel at h = 0 returns NaN, which is not the nugget. *)
Lemma matern_zero_lag_counterexample :
  Decorated.matern scipy_at_origin (Scalar (Fin 0))
    (Fin 1) (Fin 1) (Fin 1) (Fin 0)
  = Ok (Value NaN)
  /\ Ok (Value NaN) <> Ok (Value (Fin 0)).
Proof.
  split; [| discriminate].
  unfold Decorated.matern. apply variogram_Scalar.
  apply matern_zero; [apply kv_pole_at_origin | lra | lra].
Qed.

(** C6.  Under the decorator a scalar lag gives the kernel's own result.
    A sequence of lags gives an array exactly when the kernel returns on
    every element, and the array then holds those results one for one:
    same length, same order, nothing added, dropped or combined. *)
Theorem variogram_elementwise (func : num -> res num) :
  (forall h, variogram func (Scalar h) = Value <$> func h) /\
  (forall hs gs,
      variogram func (Sequence hs) = Ok (Array gs) <->
      Forall2 (fun h g => func h = Ok g) hs gs) /\
  (forall hs gs,
      variogram func (Sequence hs) = Ok (Array gs) ->
      length gs = length hs /\
      forall i h, hs !! i = Some h ->
                  exists g, gs !! i = Some g /\ func h = Ok g) /\
  (forall hs (g : num -> num),
      (forall h, h ∈ hs -> func h = Ok (g h)) ->
      variogram func (Sequence hs) = Ok (Array (g <$> hs))).
Proof.
  split; [reflexivity |]. split; [apply variogram_Sequence |]. split.
  - intros hs gs H. apply variogram_Sequence in H. split.
    + symmetry. eapply Forall2_length, H.
    + intros i h Hi.
      destruct (Forall2_lookup_l _ _ _ _ _ H Hi) as (g & Hg & Hfg).
      eauto.
  - intros hs g H. apply variogram_Sequence.
    apply Forall2_fmap_r, Forall2_same_length_lookup_2.
    + reflexivity.
    + intros i h h' Hi Hi'. assert (h' = h) as -> by congruence.
      apply H. eapply list_elem_of_lookup_2, Hi.
Qed.

Lemma variogram_elementwise_witness :
  Decorated.spherical (Sequence [Fin 0; Fin 2; Fin 3]) (Fin 2) (Fin 1) (Fin 0)
  = Ok (Array [Fin 0; Fin (0 + 1); Fin (0 + 1)]).
Proof.
  unfold Decorated.spherical.
  apply (proj1 (proj2 (variogram_elementwise
                         (fun h => spherical h (Fin 2) (Fin 1) (Fin 0))))).
  repeat constructor.
  - apply spherical_zero. lra.
  - apply spherical_sill; lra.
  - apply spherical_sill; lra.
Defined.





End KernelProperties.

(* ===================================================================== *)
(** ** The registry *)
(* ===================================================================== *)

Section Registry.
Import Py Gstools Notions.

Lemma fill_defaults_idem (e : entry) :
  fill_defaults (fill_defaults e) = fill_defaults e.
Proof. destruct e as [c [m |] [r |]]; reflexivity. Qed.

Lemma fill_defaults_gs_cls (e : entry) : gs_cls (fill_defaults e) = gs_cls e.
Proof. destruct e as [c [m |] [r |]]; reflexivity. Qed.

Lemma registry_ok_MODEL_MAP : registry_ok MODEL_MAP.
Proof. reflexivity. Qed.

Lemma registry_ok_lookup (registry : gmap string entry) (n : string) :
  registry_ok registry ->
  fill_defaults <$> (registry !! n) = fill_defaults <$> (MODEL_MAP !! n).
Proof. intros H. rewrite <- !lookup_fmap. now rewrite H. Qed.

Lemma fmap_insert_filled (registry : gmap string entry) (n : string)
  (e : entry) :
  registry !! n = Some e ->
  fill_defaults <$> <[n := fill_defaults e]> registry
  = fill_defaults <$> registry.
Proof.
  intros H. rewrite fmap_insert, fill_defaults_idem.
  apply insert_id. now rewrite lookup_fmap, H.
Qed.

(** The six entries, with their defaults filled in. *)
Lemma MODEL_MAP_lookup_Some (n : string) (e : entry) :
  MODEL_MAP !! n = Some e ->
  (n = "spherical" /\
   fill_defaults e = {| gs_cls := "Spherical"; arg_map := Some [];
                        rescale := Some (Constant (Fin 1)) |}) \/
  (n = "exponential" /\
   fill_defaults e = {| gs_cls := "Exponential"; arg_map := Some [];
                        rescale := Some (Constant (Fin 3)) |}) \/
  (n = "gaussian" /\
   fill_defaults e = {| gs_cls := "Gaussian"; arg_map := Some [];
                        rescale := Some (Constant (Fin 2)) |}) \/
  (n = "cubic" /\
   fill_defaults e = {| gs_cls := "Cubic"; arg_map := Some [];
                        rescale := Some (Constant (Fin 1)) |}) \/
  (n = "stable" /\
   fill_defaults e = {| gs_cls := "Stable";
                        arg_map := Some [("alpha", "shape")];
                        rescale := Some (Callable stable_rescale) |}) \/
  (n = "matern" /\
   fill_defaults e = {| gs_cls := "Matern";
                        arg_map := Some [("nu", "smoothness")];
                        rescale := Some (Callable matern_rescale) |}).
Proof.
  unfold MODEL_MAP. simpl.
  rewrite !lookup_insert_Some, lookup_empty.
  intros H.
  repeat (destruct H as [[<- <-] | [_ H]];
          [tauto |]).
  discriminate.
Qed.

Lemma MODEL_MAP_lookup_None (n : string) :
  n ∉ ["spherical"; "exponential"; "gaussian"; "cubic"; "stable"; "matern"]
  -> MODEL_MAP !! n = None.
Proof.
  rewrite !not_elem_of_cons. intros (? & ? & ? & ? & ? & ? & _).
  unfold MODEL_MAP. simpl.
  rewrite !lookup_insert_ne by congruence. apply lookup_empty.
Qed.

Lemma registry_ok_None (registry : gmap string entry) (n : string) :
  registry_ok registry -> MODEL_MAP !! n = None -> registry !! n = None.
Proof.
  intros Hok Hn. pose proof (registry_ok_lookup registry n Hok) as H.
  rewrite Hn in H. now destruct (registry !! n).
Qed.

Lemma registry_ok_Some (registry : gmap string entry) (n : string)
  (e0 : entry) :
  registry_ok registry -> MODEL_MAP !! n = Some e0 ->
  exists e, registry !! n = Some e /\ fill_defaults e = fill_defaults e0.
Proof.
  intros Hok Hn. pose proof (registry_ok_lookup registry n Hok) as H.
  rewrite Hn in H. destruct (registry !! n) as [e |]; [| discriminate].
  exists e. split; [reflexivity | now injection H].
Qed.

End Registry.

(* ===================================================================== *)
(** ** One call of the adapter *)
(* ===================================================================== *)

Section Translation.
Import Py Gstools Notions.
Local Open Scope py_scope.

Lemma truediv_ok (x y : num) : y <> Fin 0 -> truediv x y = Ok (div x y).
Proof.
  intros Hy. unfold truediv. destruct y as [b | | |]; try reflexivity.
  destruct (Req_dec_T b 0) as [-> |]; [contradiction | reflexivity].
Qed.

Lemma setdefault_lookup {V : Type} (key k : string) (v x : V)
  (d : gmap string V) :
  d !! k = Some x -> setdefault key v d !! k = Some x.
Proof.
  intros H. unfold setdefault. destruct (d !! key) eqn:Hkey; [assumption |].
  rewrite lookup_insert_ne; [assumption | congruence].
Qed.

Lemma setdefault_lookup_None {V : Type} (key k : string) (v : V)
  (d : gmap string V) :
  k <> key -> d !! k = None -> setdefault key v d !! k = None.
Proof.
  intros Hne H. unfold setdefault. destruct (d !! key); [assumption |].
  now rewrite lookup_insert_ne.
Qed.

(** Past the two guards, a call fills the entry in the registry and
    builds the model from the filled entry. *)
Lemma translate_step (gs : gstools) (v : Variogram)
  (kw : gmap string pyval) (registry : gmap string entry) (e : entry) :
  version_gate gs = Ok tt ->
  registry !! name (describe v) = Some e ->
  skgstat_to_gstools (Some gs) v kw registry
  = (build gs (describe v) (setdefault "dim" (VInt (dim v)) kw)
       (fill_defaults e),
     <[name (describe v) := fill_defaults e]> registry).
Proof.
  intros Hgate He. unfold skgstat_to_gstools. now rewrite Hgate, He.
Qed.

Lemma translate_unregistered (gs : gstools) (v : Variogram)
  (kw : gmap string pyval) (registry : gmap string entry) :
  version_gate gs = Ok tt ->
  registry !! name (describe v) = None ->
  skgstat_to_gstools (Some gs) v kw registry
  = (Raise (ValueError ("skgstat_to_gstools: model not supported: "
                          ++ name (describe v))),
     registry).
Proof.
  intros Hgate He. unfold skgstat_to_gstools. now rewrite Hgate, He.
Qed.

(** The registry after a call: untouched, or the entry of the requested
    family replaced by its filled form. *)
Lemma translate_registry (gs : option gstools) (v : Variogram)
  (kw : gmap string pyval) (registry : gmap string entry) :
  (skgstat_to_gstools gs v kw registry).2 = registry \/
  exists e, registry !! name (describe v) = Some e /\
            (skgstat_to_gstools gs v kw registry).2
            = <[name (describe v) := fill_defaults e]> registry.
Proof.
  unfold skgstat_to_gstools. destruct gs as [gs |]; [| now left].
  destruct (version_gate gs); [| now left].
  destruct (registry !! name (describe v)) as [e |] eqn:He; [| now left].
  right. now exists e.
Qed.

(** Overrides are merged over whatever was derived. *)
Lemma build_kwargs (gs : gstools) (d : Describe) (kw : gmap string pyval)
  (e : entry) (m : CovModel) :
  build gs d kw e = Ok m -> exists derived, kwargs m = kw ∪ derived.
Proof.
  unfold build.
  destruct (getitem d "sill"); [rewrite bind_Ok | discriminate].
  destruct (getitem d "nugget"); [rewrite bind_Ok | discriminate].
  destruct (getitem d "effective_range"); [rewrite !bind_Ok | discriminate].
  destruct (resolve_rescale d e); [rewrite bind_Ok | discriminate].
  destruct (arg_map e); [rewrite bind_Ok | discriminate].
  destruct (copy_args _ _ _) as [derived |]; [rewrite bind_Ok | discriminate].
  destruct (getattr gs (gs_cls e)); [rewrite bind_Ok | discriminate].
  intros [= <-]. now exists derived.
Qed.

Lemma build_ok (gs : gstools) (d : Describe) (kw : gmap string pyval)
  (e : entry) (sill nugget er r : num) (args : list (string * string))
  (derived : gmap string pyval) :
  params d !! "sill" = Some sill ->
  params d !! "nugget" = Some nugget ->
  params d !! "effective_range" = Some er ->
  resolve_rescale d e = Ok r ->
  arg_map e = Some args ->
  copy_args d args (<["rescale" := VFloat r]> (base_kwargs sill nugget er))
  = Ok derived ->
  gs_cls e ∈ attributes gs ->
  build gs d kw e = Ok {| cls := gs_cls e; kwargs := kw ∪ derived |}.
Proof.
  intros Hs Hn Her Hr Ha Hc Hcls. unfold build, getitem.
  rewrite Hs, Hn, Her, !bind_Ok, Hr, bind_Ok, Ha, bind_Ok.
  unfold base_kwargs in Hc. rewrite Hc, bind_Ok.
  unfold getattr. now rewrite bool_decide_eq_true_2.
Qed.

End Translation.

Section Families.
Import Py Gstools Notions.
Local Open Scope py_scope.

Lemma MODEL_MAP_class (gs : gstools) (n : string) (e0 : entry) :
  gstools_ok gs -> MODEL_MAP !! n = Some e0 -> gs_cls e0 ∈ attributes gs.
Proof.
  intros [_ Hattrs] Hn.
  rewrite !Forall_cons in Hattrs.
  destruct Hattrs as (? & ? & ? & ? & ? & ? & _).
  rewrite <- fill_defaults_gs_cls.
  destruct (MODEL_MAP_lookup_Some n e0 Hn)
    as [[_ ->] | [[_ ->] | [[_ ->] | [[_ ->] | [[_ ->] | [_ ->]]]]]];
    assumption.
Qed.

Variable gs : gstools.
Variable v : Variogram.
Variable kw : gmap string pyval.
Variable registry : gmap string entry.
Variables sill nugget er : num.

Hypothesis gs_ok : gstools_ok gs.
Hypothesis reg_ok : registry_ok registry.
Hypothesis has_sill : params (describe v) !! "sill" = Some sill.
Hypothesis has_nugget : params (describe v) !! "nugget" = Some nugget.
Hypothesis has_range : params (describe v) !! "effective_range" = Some er.

Lemma translate_registered (e0 : entry) (r : num)
  (args : list (string * string)) (derived : gmap string pyval) :
  MODEL_MAP !! name (describe v) = Some e0 ->
  resolve_rescale (describe v) (fill_defaults e0) = Ok r ->
  arg_map (fill_defaults e0) = Some args ->
  copy_args (describe v) args
    (<["rescale" := VFloat r]> (base_kwargs sill nugget er)) = Ok derived ->
  (skgstat_to_gstools (Some gs) v kw registry).1
  = Ok {| cls := gs_cls e0;
          kwargs := setdefault "dim" (VInt (dim v)) kw ∪ derived |}.
Proof using gs_ok reg_ok has_sill has_nugget has_range.
  intros Hn Hr Ha Hc.
  destruct (registry_ok_Some registry _ e0 reg_ok Hn) as (e & He & Hfill).
  rewrite (translate_step gs v kw registry e (proj1 gs_ok) He). simpl.
  rewrite Hfill.
  rewrite (build_ok gs (describe v) _ (fill_defaults e0)
             sill nugget er r args derived); try assumption.
  - now rewrite fill_defaults_gs_cls.
  - rewrite fill_defaults_gs_cls. eapply MODEL_MAP_class; eassumption.
Qed.

(** Families without a shape parameter: a constant rescale. *)
Lemma translate_plain (e0 : entry) (c : string) (x : num) :
  MODEL_MAP !! name (describe v) = Some e0 ->
  fill_defaults e0
  = {| gs_cls := c; arg_map := Some []; rescale := Some (Constant x) |} ->
  (skgstat_to_gstools (Some gs) v kw registry).1
  = Ok {| cls := c;
          kwargs := setdefault "dim" (VInt (dim v)) kw
                      ∪ <["rescale" := VFloat x]>
                          (base_kwargs sill nugget er) |}.
Proof using gs_ok reg_ok has_sill has_nugget has_range.
  intros Hn Hfill.
  rewrite (translate_registered e0 x []
             (<["rescale" := VFloat x]> (base_kwargs sill nugget er)) Hn).
  - rewrite <- (fill_defaults_gs_cls e0), Hfill. reflexivity.
  - now rewrite Hfill.
  - now rewrite Hfill.
  - reflexivity.
Qed.

Lemma translate_stable (s : num) :
  name (describe v) = "stable" ->
  params (describe v) !! "shape" = Some s ->
  s <> Fin 0 ->
  (skgstat_to_gstools (Some gs) v kw registry).1
  = Ok {| cls := "Stable";
          kwargs := setdefault "dim" (VInt (dim v)) kw
                      ∪ <["alpha" := VFloat s]>
                          (<["rescale" := VFloat (Fin 3 ** div (Fin 1) s)]>
                             (base_kwargs sill nugget er)) |}.
Proof using gs_ok reg_ok has_sill has_nugget has_range.
  intros Hname Hshape Hs.
  assert (MODEL_MAP !! name (describe v)
          = Some {| gs_cls := "Stable"; arg_map := Some [("alpha", "shape")];
                    rescale := Some (Callable stable_rescale) |}) as Hn
    by now rewrite Hname.
  rewrite (translate_registered _ (Fin 3 ** div (Fin 1) s)
             [("alpha", "shape")]
             (<["alpha" := VFloat s]>
                (<["rescale" := VFloat (Fin 3 ** div (Fin 1) s)]>
                   (base_kwargs sill nugget er))) Hn); try reflexivity.
  - simpl. unfold resolve_rescale, stable_rescale, getitem. simpl.
    now rewrite Hshape, bind_Ok, truediv_ok, bind_Ok by assumption.
  - simpl. unfold getitem. now rewrite Hshape, bind_Ok.
Qed.

Lemma translate_matern (s : num) :
  name (describe v) = "matern" ->
  params (describe v) !! "smoothness" = Some s ->
  (skgstat_to_gstools (Some gs) v kw registry).1
  = Ok {| cls := "Matern";
          kwargs := setdefault "dim" (VInt (dim v)) kw
                      ∪ <["nu" := VFloat s]>
                          (<["rescale" :=
                               VFloat (if (Fin 0.5 <? s) && (s <? Fin 10)
                                       then Fin 4 else Fin 6)]>
                             (base_kwargs sill nugget er)) |}.
Proof using gs_ok reg_ok has_sill has_nugget has_range.
  intros Hname Hsmooth.
  assert (MODEL_MAP !! name (describe v)
          = Some {| gs_cls := "Matern";
                    arg_map := Some [("nu", "smoothness")];
                    rescale := Some (Callable matern_rescale) |}) as Hn
    by now rewrite Hname.
  rewrite (translate_registered _
             (if (Fin 0.5 <? s) && (s <? Fin 10) then Fin 4 else Fin 6)
             [("nu", "smoothness")]
           (<["nu" := VFloat s]>
              (<["rescale" :=
                   VFloat (if (Fin 0.5 <? s) && (s <? Fin 10)
                           then Fin 4 else Fin 6)]>
                 (base_kwargs sill nugget er))) Hn); try reflexivity.
  - simpl. unfold resolve_rescale, matern_rescale, getitem. simpl.
    rewrite Hsmooth, bind_Ok.
    now destruct (andb _ _).
  - simpl. unfold getitem. now rewrite Hsmooth, bind_Ok.
Qed.

(** Every complete record of a registered family is translated, and the
    derived keywords sit under the caller's. *)
Lemma translate_complete :
  complete (describe v) ->
  exists (c : string) (r : num) (shape : gmap string pyval),
    (skgstat_to_gstools (Some gs) v kw registry).1
    = Ok {| cls := c;
            kwargs := setdefault "dim" (VInt (dim v)) kw
                        ∪ (shape ∪ <["rescale" := VFloat r]>
                                     (base_kwargs sill nugget er)) |}
    /\ (forall k, k ∈ ["var"; "len_scale"; "nugget"; "rescale"] ->
                  shape !! k = None).
Proof using gs_ok reg_ok has_sill has_nugget has_range.
  intros ([e0 Hn] & _ & _ & _ & Hstable & Hmatern).
  destruct (MODEL_MAP_lookup_Some _ e0 Hn)
    as [[Hname Hf] | [[Hname Hf] | [[Hname Hf] | [[Hname Hf]
        | [[Hname Hf] | [Hname Hf]]]]]].
  1-4: eexists _, _, ∅; rewrite (left_id_L ∅ (∪));
       (split; [eapply translate_plain; eassumption
               | intros; apply lookup_empty]).
  - destruct (Hstable Hname) as (s & Hshape & Hs).
    exists "Stable", (Fin 3 ** div (Fin 1) s), {["alpha" := VFloat s]}.
    split.
    + rewrite <- insert_union_singleton_l. now apply translate_stable.
    + intros k Hk. apply lookup_singleton_None.
      rewrite !elem_of_cons in Hk. intros <-.
      destruct Hk as [? | [? | [? | [? | Hk]]]]; try discriminate.
      now apply elem_of_nil in Hk.
  - destruct (Hmatern Hname) as (s & Hsmooth).
    exists "Matern",
      (if (Fin 0.5 <? s) && (s <? Fin 10) then Fin 4 else Fin 6),
      {["nu" := VFloat s]}.
    split.
    + rewrite <- insert_union_singleton_l. now apply translate_matern.
    + intros k Hk. apply lookup_singleton_None.
      rewrite !elem_of_cons in Hk. intros <-.
      destruct Hk as [? | [? | [? | [? | Hk]]]]; try discriminate.
      now apply elem_of_nil in Hk.
Qed.

End Families.

(* ===================================================================== *)
(** ** The concrete inputs are well formed *)
(* ===================================================================== *)

Section InputFacts.
Import Py Gstools Notions Inputs.

Lemma gstools_1_3_ok : gstools_ok (gstools_with "1.3.0").
Proof.
  split; [reflexivity |].
  repeat (apply Forall_cons; split; [set_solver |]). apply Forall_nil_2.
Qed.

Lemma spherical_complete : complete (describe spherical_variogram).
Proof.
  repeat split; try (eexists; reflexivity); discriminate.
Qed.

Lemma stable_complete : complete (describe stable_variogram).
Proof.
  repeat split; try (eexists; reflexivity); try discriminate.
  intros _. exists (Fin 2). split; [reflexivity |].
  intros [= H]. lra.
Qed.

End InputFacts.

(* ===================================================================== *)
(** ** Properties of the adapter *)
(* ===================================================================== *)

Section AdapterProperties.
Import Py Gstools Notions Inputs.
Local Open Scope py_scope.

Lemma final_keyword_union (result : res CovModel) (c : string)
  (kw derived : gmap string pyval) (key : string) (x : pyval) :
  result = Ok {| cls := c; kwargs := kw ∪ derived |} ->
  kw !! key = None -> derived !! key = Some x ->
  final_keyword result key x.
Proof.
  intros -> Hkw Hd. eexists. split; [reflexivity |]. simpl.
  now rewrite lookup_union_r.
Qed.

(** C2, as the code has it.  A call does write to the registry: lines
    73-74 store the defaults [rescale = 1.0] and [arg_map = {}] in the
    entry of the requested family when that entry lacks them.  Nothing
    else changes: every other entry, and every key an entry already has,
    is the same before and after the call, and a second call with the
    same arguments leaves the registry as the first one left it. *)
Theorem registry_changes_by_defaults_only (gs : option gstools)
  (v : Variogram) (kw : gmap string pyval) (registry : gmap string entry) :
  let after := (skgstat_to_gstools gs v kw registry).2 in
  (forall n,
      after !! n = registry !! n \/
      (n = name (describe v) /\
       after !! n = fill_defaults <$> registry !! n)) /\
  fill_defaults <$> after = fill_defaults <$> registry /\
  (skgstat_to_gstools gs v kw after).2 = after.
Proof.
  intros after.
  destruct (translate_registry gs v kw registry) as [Heq | (e & He & Heq)];
    fold after in Heq.
  - rewrite Heq. repeat split; [now left | assumption].
  - split; [| split].
    + intros n. destruct (decide (n = name (describe v))) as [-> | Hne].
      * right. split; [reflexivity |].
        now rewrite Heq, lookup_insert_eq, He.
      * left. now rewrite Heq, lookup_insert_ne.
    + rewrite Heq. now apply fmap_insert_filled.
    + destruct (translate_registry gs v kw after) as [H | (e' & He' & H)];
        [assumption |].
      rewrite H. rewrite Heq, lookup_insert_eq in He'.
      injection He' as <-.
      now rewrite fill_defaults_idem, Heq, insert_insert_eq.
Qed.

(** C2 as stated fails: the first call for a spherical variogram replaces
    the entry [spherical] of [MODEL_MAP], which has the key [gs_cls] only,
    by one that has [arg_map] and [rescale] too. *)
Lemma registry_mutation_counterexample :
  MODEL_MAP !! "spherical"
  = Some {| gs_cls := "Spherical"; arg_map := None; rescale := None |}
  /\ (skgstat_to_gstools (Some (gstools_with "1.3.0"))
        spherical_variogram ∅ MODEL_MAP).2 !! "spherical"
     = Some {| gs_cls := "Spherical"; arg_map := Some [];
               rescale := Some (Constant (Fin 1)) |}.
Proof. split; reflexivity. Qed.

(** C10.  A call repeated with the same GSTools, variogram and overrides,
    on the registry the first call left behind, returns what the first
    call returned (the same class and keyword set, or the same exception)
    and leaves the registry as it found it. *)
Theorem translate_twice_same (gs : option gstools) (v : Variogram)
  (kw : gmap string pyval) (registry : gmap string entry) :
  let first := skgstat_to_gstools gs v kw registry in
  skgstat_to_gstools gs v kw first.2 = first.
Proof.
  intros first. subst first. unfold skgstat_to_gstools.
  destruct gs as [gs |]; [| reflexivity].
  destruct (version_gate gs) eqn:Hgate; simpl; rewrite ?Hgate;
    [| reflexivity].
  destruct (registry !! name (describe v)) as [e |] eqn:He; simpl.
  - rewrite lookup_insert_eq.
    fold (fill_defaults e). fold (fill_defaults (fill_defaults e)).
    now rewrite fill_defaults_idem, insert_insert_eq.
  - now rewrite He.
Qed.

(** C9.  Each guard ends the call at once with its own exception, no model
    and an untouched registry.  A missing GSTools raises [ImportError]
    (MissingDependency).  Version 1.2.0 raises the [ValueError] that asks
    for v1.3 or greater (UnsupportedVersion); version 1.3.0 passes the
    gate.  A name outside the six registered families raises the
    [ValueError] whose message ends with that name (UnsupportedModel). *)
Theorem translate_fails_fast (v : Variogram) (kw : gmap string pyval)
  (registry : gmap string entry) :
  skgstat_to_gstools None v kw registry
  = (Raise (ImportError "to_gstools: GSTools not installed."), registry) /\
  (forall attrs,
      skgstat_to_gstools (Some {| version := "1.2.0"; attributes := attrs |})
        v kw registry
      = (Raise (ValueError "to_gstools: GSTools v1.3 or greater requiered."),
         registry)) /\
  (forall attrs,
      version_gate {| version := "1.3.0"; attributes := attrs |} = Ok tt) /\
  (forall gs,
      version_gate gs = Ok tt ->
      registry_ok registry ->
      name (describe v)
        ∉ ["spherical"; "exponential"; "gaussian"; "cubic"; "stable";
           "matern"] ->
      skgstat_to_gstools (Some gs) v kw registry
      = (Raise (ValueError ("skgstat_to_gstools: model not supported: "
                              ++ name (describe v))),
         registry)).
Proof.
  split; [reflexivity |]. split; [reflexivity |]. split; [reflexivity |].
  intros gs Hgate Hok Hname. apply translate_unregistered; [assumption |].
  apply registry_ok_None; [assumption |]. now apply MODEL_MAP_lookup_None.
Qed.

Lemma unknown_not_registered :
  name (describe unknown_variogram)
    ∉ ["spherical"; "exponential"; "gaussian"; "cubic"; "stable"; "matern"].
Proof.
  simpl. rewrite !not_elem_of_cons.
  repeat split; try discriminate. apply not_elem_of_nil.
Qed.

Lemma translate_fails_fast_witness :
  version_gate (gstools_with "1.3.0") = Ok tt /\
  registry_ok MODEL_MAP /\
  skgstat_to_gstools (Some (gstools_with "1.3.0")) unknown_variogram ∅
    MODEL_MAP
  = (Raise (ValueError "skgstat_to_gstools: model not supported: unknown"),
     MODEL_MAP).
Proof.
  assert (version_gate (gstools_with "1.3.0") = Ok tt) as Hgate
    by reflexivity.
  assert (registry_ok MODEL_MAP) as Hok by reflexivity.
  split; [exact Hgate |]. split; [exact Hok |].
  exact (proj2 (proj2 (proj2
           (translate_fails_fast unknown_variogram ∅ MODEL_MAP)))
           (gstools_with "1.3.0") Hgate Hok unknown_not_registered).
Defined.

(** C4.  For a complete describe record of a registered family, and
    unless the caller overrides them, the keywords of the model are
    var = sill - nugget, len_scale = effective_range and nugget = nugget.
    The spherical record with sill 6, nugget 1, effective range 10 and
    two dimensions gives exactly dim = 2, var = 5, len_scale = 10,
    nugget = 1 and rescale = 1. *)
Theorem base_parameters :
  (forall gs v kw registry sill nugget er,
      gstools_ok gs -> registry_ok registry -> complete (describe v) ->
      params (describe v) !! "sill" = Some sill ->
      params (describe v) !! "nugget" = Some nugget ->
      params (describe v) !! "effective_range" = Some er ->
      kw !! "var" = None -> kw !! "len_scale" = None ->
      kw !! "nugget" = None ->
      let result := (skgstat_to_gstools (Some gs) v kw registry).1 in
      final_keyword result "var" (VFloat (sill - nugget)) /\
      final_keyword result "len_scale" (VFloat er) /\
      final_keyword result "nugget" (VFloat nugget)) /\
  (skgstat_to_gstools (Some (gstools_with "1.3.0")) spherical_variogram ∅
     MODEL_MAP).1
  = Ok {| cls := "Spherical";
          kwargs := list_to_map [("dim", VInt 2);
                                 ("var", VFloat (Fin 5));
                                 ("len_scale", VFloat (Fin 10));
                                 ("nugget", VFloat (Fin 1));
                                 ("rescale", VFloat (Fin 1))] |}.
Proof.
  split.
  - intros gs v kw registry sill nugget er Hgs Hreg Hc Hs Hn Her
      Hvar Hlen Hnug result.
    destruct (translate_complete gs v kw registry sill nugget er
                Hgs Hreg Hs Hn Her Hc) as (c & r & shape & Hres & Hshape).
    fold result in Hres.
    repeat split; eapply final_keyword_union; try exact Hres;
      try (apply setdefault_lookup_None; [discriminate | assumption]).
    all: rewrite lookup_union_r
      by (apply Hshape; rewrite !elem_of_cons; tauto).
    all: unfold base_kwargs; rewrite ?lookup_insert_ne by done.
    all: first [apply lookup_insert_eq | apply lookup_singleton_eq].
  - rewrite (translate_plain (gstools_with "1.3.0") spherical_variogram ∅
               MODEL_MAP (Fin 6) (Fin 1) (Fin 10) gstools_1_3_ok
               registry_ok_MODEL_MAP eq_refl eq_refl eq_refl
               {| gs_cls := "Spherical"; arg_map := None; rescale := None |}
               "Spherical" (Fin 1) eq_refl eq_refl).
    do 2 f_equal. unfold base_kwargs.
    change (Fin 6 - Fin 1) with (Fin (6 + - 1)%R).
    replace (6 + - 1)%R with 5%R by lra. reflexivity.
Qed.

Lemma base_parameters_witness :
  gstools_ok (gstools_with "1.3.0") /\
  registry_ok MODEL_MAP /\
  complete (describe stable_variogram) /\
  let result := (skgstat_to_gstools (Some (gstools_with "1.3.0"))
                   stable_variogram ∅ MODEL_MAP).1 in
  final_keyword result "var" (VFloat (Fin 6 - Fin 1)) /\
  final_keyword result "len_scale" (VFloat (Fin 10)) /\
  final_keyword result "nugget" (VFloat (Fin 1)).
Proof.
  split; [exact gstools_1_3_ok |]. split; [exact registry_ok_MODEL_MAP |].
  split; [exact stable_complete |].
  exact (proj1 base_parameters (gstools_with "1.3.0") stable_variogram ∅
           MODEL_MAP (Fin 6) (Fin 1) (Fin 10)
           gstools_1_3_ok registry_ok_MODEL_MAP stable_complete
           eq_refl eq_refl eq_refl eq_refl eq_refl eq_refl).
Defined.

(** C3.  Unless the caller overrides it, the keyword [rescale] of the
    model is, by family: 3^(1/shape) for stable; 4 for matern when
    0.5 < smoothness < 10 and 6 otherwise; 3 for exponential; 2 for
    gaussian; the default 1 for spherical and cubic.  A function stored in
    the registry is called with the describe record, a constant is used as
    it is. *)
Theorem rescale_dispatch (gs : gstools) (v : Variogram)
  (kw : gmap string pyval) (registry : gmap string entry)
  (sill nugget er : num) :
  gstools_ok gs -> registry_ok registry ->
  params (describe v) !! "sill" = Some sill ->
  params (describe v) !! "nugget" = Some nugget ->
  params (describe v) !! "effective_range" = Some er ->
  kw !! "rescale" = None ->
  let result := (skgstat_to_gstools (Some gs) v kw registry).1 in
  (name (describe v) = "stable" ->
   forall s : R,
     params (describe v) !! "shape" = Some (Fin s) -> s <> 0%R ->
     final_keyword result "rescale" (VFloat (Fin (Rpower 3 (1 / s))))) /\
  (name (describe v) = "matern" ->
   forall s : R,
     params (describe v) !! "smoothness" = Some (Fin s) ->
     ((0.5 < s < 10)%R ->
      final_keyword result "rescale" (VFloat (Fin 4))) /\
     ((s <= 0.5 \/ 10 <= s)%R ->
      final_keyword result "rescale" (VFloat (Fin 6)))) /\
  (name (describe v) = "exponential" ->
   final_keyword result "rescale" (VFloat (Fin 3))) /\
  (name (describe v) = "gaussian" ->
   final_keyword result "rescale" (VFloat (Fin 2))) /\
  (name (describe v) = "spherical" \/ name (describe v) = "cubic" ->
   final_keyword result "rescale" (VFloat (Fin 1))) /\
  (forall d e f,
      rescale e = Some (Callable f) -> resolve_rescale d e = f d) /\
  (forall d e x,
      rescale e = Some (Constant x) -> resolve_rescale d e = Ok x).
Proof.
  intros Hgs Hreg Hs Hn Her Hkw result.
  assert (setdefault "dim" (VInt (dim v)) kw !! "rescale" = None) as Hkw'
    by (apply setdefault_lookup_None; [discriminate | assumption]).
  assert (forall e0 c x,
             MODEL_MAP !! name (describe v) = Some e0 ->
             fill_defaults e0
             = {| gs_cls := c; arg_map := Some [];
                  rescale := Some (Constant x) |} ->
             final_keyword result "rescale" (VFloat x)) as Hplain.
  { intros e0 c x He0 Hfill.
    eapply final_keyword_union; [| exact Hkw' | apply lookup_insert_eq].
    exact (translate_plain gs v kw registry sill nugget er Hgs Hreg
             Hs Hn Her e0 c x He0 Hfill). }
  split; [| split; [| split; [| split; [| split; [| split]]]]].
  - intros Hname s Hshape Hs0.
    assert (1 / s <> 0)%R as Hinv.
    { unfold Rdiv. rewrite Rmult_1_l. now apply Rinv_neq_0_compat. }
    eapply final_keyword_union; [| exact Hkw' |].
    + apply (translate_stable gs v kw registry sill nugget er Hgs Hreg
               Hs Hn Her (Fin s) Hname Hshape).
      intros [= H]. contradiction.
    + rewrite lookup_insert_ne by done. rewrite lookup_insert_eq.
      rewrite div_fin by assumption.
      now rewrite pow_pos by (lra || assumption).
  - intros Hname s Hsmooth.
    pose proof (translate_matern gs v kw registry sill nugget er Hgs Hreg
                  Hs Hn Her (Fin s) Hname Hsmooth) as Hres.
    split.
    + intros [Hlo Hhi].
      eapply final_keyword_union; [exact Hres | exact Hkw' |].
      rewrite lookup_insert_ne by done. rewrite lookup_insert_eq.
      now rewrite !lt_fin_true.
    + intros Hout.
      eapply final_keyword_union; [exact Hres | exact Hkw' |].
      rewrite lookup_insert_ne by done. rewrite lookup_insert_eq.
      destruct Hout as [Hlo | Hhi].
      * now rewrite (lt_fin_false 0.5 s).
      * rewrite (lt_fin_false s 10) by assumption.
        now rewrite andb_false_r.
  - intros Hname. eapply Hplain; [rewrite Hname; reflexivity | reflexivity].
  - intros Hname. eapply Hplain; [rewrite Hname; reflexivity | reflexivity].
  - intros [Hname | Hname];
      (eapply Hplain; [rewrite Hname; reflexivity | reflexivity]).
  - intros d e f He. unfold resolve_rescale. now rewrite He.
  - intros d e x He. unfold resolve_rescale. now rewrite He.
Qed.

Lemma rescale_dispatch_witness :
  final_keyword
    (skgstat_to_gstools (Some (gstools_with "1.3.0")) stable_variogram ∅
       MODEL_MAP).1
    "rescale" (VFloat (Fin (Rpower 3 (1 / 2)))) /\
  final_keyword
    (skgstat_to_gstools (Some (gstools_with "1.3.0")) (matern_variogram 1.5)
       ∅ MODEL_MAP).1
    "rescale" (VFloat (Fin 4)) /\
  final_keyword
    (skgstat_to_gstools (Some (gstools_with "1.3.0")) (matern_variogram 15)
       ∅ MODEL_MAP).1
    "rescale" (VFloat (Fin 6)).
Proof.
  assert (2 <> 0)%R as Hshape by lra.
  assert (0.5 < 1.5 < 10)%R as Hin by lra.
  assert (15 <= 0.5 \/ 10 <= 15)%R as Hout by (right; lra).
  pose (dispatch := fun v =>
          rescale_dispatch (gstools_with "1.3.0") v ∅ MODEL_MAP
            (Fin 6) (Fin 1) (Fin 10) gstools_1_3_ok registry_ok_MODEL_MAP).
  split; [| split].
  - exact (proj1 (dispatch stable_variogram
                    eq_refl eq_refl eq_refl eq_refl)
             eq_refl 2%R eq_refl Hshape).
  - exact (proj1 (proj1 (proj2 (dispatch (matern_variogram 1.5)
                                  eq_refl eq_refl eq_refl eq_refl))
                    eq_refl 1.5%R eq_refl) Hin).
  - exact (proj2 (proj1 (proj2 (dispatch (matern_variogram 15)
                                  eq_refl eq_refl eq_refl eq_refl))
                    eq_refl 15%R eq_refl) Hout).
Defined.

(** Whatever the registry and the record, a model that is returned holds
    every override under its key. *)
Lemma override_in_any_result (gs : option gstools) (v : Variogram)
  (kw : gmap string pyval) (registry : gmap string entry) (m : CovModel)
  (key : string) (value : pyval) :
  (skgstat_to_gstools gs v kw registry).1 = Ok m ->
  kw !! key = Some value ->
  kwargs m !! key = Some value.
Proof.
  intros Hres Hkw. unfold skgstat_to_gstools in Hres.
  destruct gs as [gs |]; [| discriminate].
  destruct (version_gate gs); [| discriminate].
  destruct (registry !! name (describe v)); [| discriminate].
  simpl in Hres. apply build_kwargs in Hres as [derived ->].
  apply lookup_union_Some_l. now apply setdefault_lookup.
Qed.

(** C5.  For a complete describe record of a registered family the call
    returns a model, and every keyword the caller passes, whatever its key
    (dim, rescale, var, len_scale, nugget, a shape parameter or any
    other), has the caller's value in the final keyword set.  So
    rescale = 9.9 gives rescale 9.9 for every family. *)
Theorem overrides_take_precedence (gs : gstools) (v : Variogram)
  (kw : gmap string pyval) (registry : gmap string entry)
  (key : string) (value : pyval) :
  gstools_ok gs -> registry_ok registry -> complete (describe v) ->
  kw !! key = Some value ->
  final_keyword (skgstat_to_gstools (Some gs) v kw registry).1 key value.
Proof.
  intros Hgs Hreg Hc Hkw.
  pose proof Hc as (_ & [sill Hs] & [nugget Hn] & [er Her] & _).
  destruct (translate_complete gs v kw registry sill nugget er
              Hgs Hreg Hs Hn Her Hc) as (c & r & shape & Hres & _).
  eexists. split; [exact Hres |]. simpl.
  apply lookup_union_Some_l. now apply setdefault_lookup.
Qed.

Lemma overrides_take_precedence_witness :
  gstools_ok (gstools_with "1.3.0") /\
  registry_ok MODEL_MAP /\
  complete (describe stable_variogram) /\
  final_keyword
    (skgstat_to_gstools (Some (gstools_with "1.3.0")) stable_variogram
       {["rescale" := VFloat (Fin 9.9)]} MODEL_MAP).1
    "rescale" (VFloat (Fin 9.9)).
Proof.
  split; [exact gstools_1_3_ok |]. split; [exact registry_ok_MODEL_MAP |].
  split; [exact stable_complete |].
  exact (overrides_take_precedence (gstools_with "1.3.0") stable_variogram
           {["rescale" := VFloat (Fin 9.9)]} MODEL_MAP
           "rescale" (VFloat (Fin 9.9))
           gstools_1_3_ok registry_ok_MODEL_MAP stable_complete eq_refl).
Defined.

End AdapterProperties.

(* ===================================================================== *)
(** ** The shape of the kernels *)
(* ===================================================================== *)

Section KernelShapes.
Import Py Models Notions.
Local Open Scope py_scope.




Variables r c0 b : R.
Hypothesis r_pos : 0 < r.



End KernelShapes.

Section Polynomials.
Import Notions.




End Polynomials.

Section Asymptotic.
Import Py Models Notions.
Local Open Scope py_scope.

Variables r c0 b : R.
Hypothesis r_pos : 0 < r.

Lemma exponential_value (h : R) :
  exponential (Fin h) (Fin r) (Fin c0) (Fin b)
  = Ok (Fin (b + c0 * (1 - exp (- (3 * (h / r)))))%R).
Proof using r_pos.
  unfold exponential.
  rewrite truediv_fin, bind_Ok by lra.
  rewrite truediv_fin, bind_Ok by lra.
  replace (h / (r / 3))%R with (3 * (h / r))%R by (field; lra).
  reflexivity.
Qed.


(** The range parameter of [stable]: [r / 3^(1/s)], a positive number. *)
Lemma stable_range (s : R) :
  0 < s ->
  truediv (Fin 1) (Fin s) = Ok (Fin (1 / s)) /\
  div (Fin r) (Fin 3 ** Fin (1 / s)) = Fin (r / Rpower 3 (1 / s)) /\
  (0 < r / Rpower 3 (1 / s))%R.
Proof using r_pos.
  intros Hs.
  assert (0 < 1 / s)%R as He
    by (unfold Rdiv; rewrite Rmult_1_l; now apply Rinv_0_lt_compat).
  assert (0 < Rpower 3 (1 / s)) as Hp by apply exp_pos.
  split; [apply truediv_fin; lra |]. split.
  - rewrite pow_pos by lra. apply div_fin. lra.
  - apply Rmult_lt_0_compat; [assumption | now apply Rinv_0_lt_compat].
Qed.

Lemma stable_value (h s : R) :
  0 < h -> 0 < s ->
  stable (Fin h) (Fin r) (Fin c0) (Fin s) (Fin b)
  = Ok (Fin (b + c0 * (1 - exp (- (3 * Rpower (h / r) s))))%R).
Proof using r_pos.
  intros Hh Hs. unfold stable.
  destruct (stable_range s Hs) as (He & Hd & Ha).
  rewrite He, bind_Ok. cbv zeta. rewrite Hd.
  rewrite div_fin by lra.
  assert (0 < Rpower 3 (1 / s)) as Hp by apply exp_pos.
  replace (h / (r / Rpower 3 (1 / s)))%R with (h / r * Rpower 3 (1 / s))%R
    by (field; lra).
  assert (0 < h / r)%R as Hq
    by (apply Rmult_lt_0_compat; [assumption | now apply Rinv_0_lt_compat]).
  unfold math_pow.
  rewrite pow_pos by (try apply Rmult_lt_0_compat; lra).
  rewrite bind_Ok.
  rewrite <- Rpower_mult_distr by assumption.
  rewrite Rpower_mult.
  replace (1 / s * s)%R with 1%R by (field; lra).
  rewrite Rpower_1 by lra.
  replace (Rpower (h / r) s * 3)%R with (3 * Rpower (h / r) s)%R by lra.
  reflexivity.
Qed.

End Asymptotic.

Section ExpBound.



End ExpBound.

Section CubicMonotone.
Import Notions.





End CubicMonotone.

(* ===================================================================== *)
(** ** Further properties of the kernels *)
(* ===================================================================== *)

Section KernelExtras.
Import Py Models Notions.
Local Open Scope py_scope.








End KernelExtras.

Section AsymptoticExtras.
Import Py Models Notions.






Lemma ratio_pos (h r : R) : 0 < r -> 0 < h -> 0 < h / r.
Proof.
  intros Hr Hh. apply Rmult_lt_0_compat; [assumption |].
  now apply Rinv_0_lt_compat.
Qed.


End AsymptoticExtras.

Section AsymptoticProperties.
Import Py Models Notions.












(** X7.  With shape s = 1 the stable kernel is the exponential kernel:
    for every lag h >= 0 the two return the same value. *)
Theorem stable_shape_one_is_exponential (h r c0 b : R) :
  0 < r -> 0 <= h ->
  Decorated.stable (Scalar (Fin h)) (Fin r) (Fin c0) (Fin 1) (Fin b)
  = Decorated.exponential (Scalar (Fin h)) (Fin r) (Fin c0) (Fin b) /\
  Decorated.exponential (Scalar (Fin h)) (Fin r) (Fin c0) (Fin b)
  = Ok (Value (Fin (b + c0 * (1 - exp (- (3 * (h / r))))))).
Proof.
  intros Hr Hh.
  assert (Decorated.exponential (Scalar (Fin h)) (Fin r) (Fin c0) (Fin b)
          = Ok (Value (Fin (b + c0 * (1 - exp (- (3 * (h / r)))))))) as He
    by (apply variogram_Scalar, exponential_value; assumption).
  split; [| exact He]. rewrite He. apply variogram_Scalar.
  destruct Hh as [Hh | <-].
  - rewrite stable_value by lra.
    rewrite Rpower_1 by now apply ratio_pos. reflexivity.
  - rewrite stable_zero by lra.
    replace (0 / r) with 0 by (field; lra).
    rewrite Rmult_0_r, Ropp_0, exp_0. do 2 f_equal. lra.
Qed.

Lemma stable_shape_one_is_exponential_witness :
  0 < 10 /\ 0 <= 3 /\
  Decorated.stable (Scalar (Fin 3)) (Fin 10) (Fin 5) (Fin 1) (Fin 1)
  = Decorated.exponential (Scalar (Fin 3)) (Fin 10) (Fin 5) (Fin 1).
Proof.
  assert (0 < 10) as H1 by lra.
  assert (0 <= 3) as H2 by lra.
  split; [exact H1 |]. split; [exact H2 |].
  exact (proj1 (stable_shape_one_is_exponential 3 10 5 1 H1 H2)).
Defined.

End AsymptoticProperties.

Section DegenerateArguments.
Import Py Models Notions.
Local Open Scope py_scope.

Lemma truediv_zero (x : num) : truediv x (Fin 0) = Raise ZeroDivisionError.
Proof.
  unfold truediv. destruct (Req_dec_T 0 0); [reflexivity | contradiction].
Qed.

Lemma zero_over (d : R) : d <> 0%R -> truediv (Fin 0) (Fin d) = Ok (Fin 0).
Proof.
  intros Hd. rewrite truediv_fin by assumption.
  do 2 f_equal. unfold Rdiv. apply Rmult_0_l.
Qed.

Lemma variogram_Scalar_Raise (func : num -> res num) (h : num) (e : exn) :
  func h = Raise e -> variogram func (Scalar h) = Raise e.
Proof. intros H. unfold variogram. now rewrite H. Qed.

Lemma spherical_zero_range (h : R) (c0 b : num) :
  ((h <= 0)%R ->
   spherical (Fin h) (Fin 0) c0 b = Raise ZeroDivisionError) /\
  ((0 < h)%R -> spherical (Fin h) (Fin 0) c0 b = Ok (b + c0)).
Proof.
  unfold spherical. rewrite zero_over, bind_Ok by lra. split; intros Hh.
  - rewrite le_fin_true by assumption. now rewrite truediv_zero.
  - now rewrite le_fin_false by assumption.
Qed.

(** X8.  A zero range is not guarded.  With r = 0, exponential and
    gaussian raise ZeroDivisionError at every finite lag; spherical and
    cubic raise it for h <= 0 and return b + c0 for h > 0, where the
    branch taken does not divide.  A zero shape makes stable raise
    ZeroDivisionError whatever the other arguments. *)
Theorem zero_range_divides_by_zero (h : R) (c0 b : num) :
  Decorated.exponential (Scalar (Fin h)) (Fin 0) c0 b
    = Raise ZeroDivisionError /\
  Decorated.gaussian (Scalar (Fin h)) (Fin 0) c0 b
    = Raise ZeroDivisionError /\
  ((h <= 0)%R ->
   Decorated.spherical (Scalar (Fin h)) (Fin 0) c0 b
     = Raise ZeroDivisionError /\
   Decorated.cubic (Scalar (Fin h)) (Fin 0) c0 b
     = Raise ZeroDivisionError) /\
  ((0 < h)%R ->
   Decorated.spherical (Scalar (Fin h)) (Fin 0) c0 b = Ok (Value (b + c0)) /\
   Decorated.cubic (Scalar (Fin h)) (Fin 0) c0 b = Ok (Value (b + c0))) /\
  (forall x r : num,
      Decorated.stable (Scalar x) r c0 (Fin 0) b = Raise ZeroDivisionError).
Proof.
  split; [| split; [| split; [| split]]].
  - apply variogram_Scalar_Raise. unfold exponential.
    rewrite zero_over, bind_Ok by lra. now rewrite truediv_zero.
  - apply variogram_Scalar_Raise. unfold gaussian.
    rewrite zero_over, bind_Ok by lra.
    rewrite (pow_zero 2) by lra. now rewrite truediv_zero.
  - intros Hh. split; apply variogram_Scalar_Raise.
    + unfold spherical. rewrite zero_over, bind_Ok by lra.
      rewrite le_fin_true by assumption. now rewrite truediv_zero.
    + unfold cubic. rewrite zero_over, bind_Ok by lra.
      rewrite le_fin_true by assumption.
      rewrite (pow_zero 2) by lra. now rewrite truediv_zero.
  - intros Hh. split; apply variogram_Scalar.
    + unfold spherical. rewrite zero_over, bind_Ok by lra.
      now rewrite le_fin_false by assumption.
    + unfold cubic. rewrite zero_over, bind_Ok by lra.
      now rewrite le_fin_false by assumption.
  - intros x r. apply variogram_Scalar_Raise. unfold stable.
    now rewrite truediv_zero.
Qed.

Lemma zero_range_divides_by_zero_witness :
  (0 < 2)%R /\
  Decorated.spherical (Scalar (Fin 2)) (Fin 0) (Fin 5) (Fin 1)
  = Ok (Value (Fin 1 + Fin 5)) /\
  Decorated.exponential (Scalar (Fin 2)) (Fin 0) (Fin 5) (Fin 1)
  = Raise ZeroDivisionError.
Proof.
  assert (0 < 2)%R as H by lra.
  pose proof (zero_range_divides_by_zero 2 (Fin 5) (Fin 1))
    as (He & _ & _ & Hpos & _).
  split; [exact H |]. split; [exact (proj1 (Hpos H)) | exact He].
Defined.

End DegenerateArguments.

Section DecoratorExtras.
Import Py Models.

Lemma mapM_app_Ok (func : num -> res num) (hs1 hs2 gs1 gs2 : list num) :
  mapM func hs1 = Ok gs1 -> mapM func hs2 = Ok gs2 ->
  mapM func (hs1 ++ hs2) = Ok (gs1 ++ gs2).
Proof.
  rewrite !mapM_Ok_Forall2. apply Forall2_app.
Qed.

Lemma mapM_first_failure (func : num -> res num) (hs1 hs2 : list num)
  (h : num) (e : exn) :
  Forall (fun x => exists g, func x = Ok g) hs1 ->
  func h = Raise e ->
  mapM func (hs1 ++ h :: hs2) = Raise e.
Proof.
  intros Hok Hh. induction Hok as [| x hs [g Hg] _ IH]; simpl.
  - now rewrite Hh.
  - rewrite Hg, bind_Ok. now rewrite IH.
Qed.

(** X9.  A vectorized call fails as a whole, with no partial array: if
    the kernel returns on the lags before some lag and raises on that
    one, the call raises that same exception, whatever comes after. *)
Theorem variogram_first_failure (func : num -> res num)
  (hs1 hs2 : list num) (h : num) (e : exn) :
  Forall (fun x => exists g, func x = Ok g) hs1 ->
  func h = Raise e ->
  variogram func (Sequence (hs1 ++ h :: hs2)) = Raise e.
Proof.
  intros Hok Hh. unfold variogram.
  now rewrite (mapM_first_failure func hs1 hs2 h e Hok Hh).
Qed.

Lemma variogram_first_failure_witness :
  Decorated.spherical (Sequence [Fin 2; Fin 0; Fin 3]) (Fin 0) (Fin 5) (Fin 1)
  = Raise ZeroDivisionError.
Proof.
  assert (0 < 2)%R as Hpos by lra.
  assert (0 <= 0)%R as Hzero by lra.
  exact (variogram_first_failure
           (fun h => spherical h (Fin 0) (Fin 5) (Fin 1))
           [Fin 2] [Fin 3] (Fin 0) ZeroDivisionError
           (Forall_cons_2 _ _ _
              (ex_intro _ _
                 (proj2 (spherical_zero_range 2 (Fin 5) (Fin 1)) Hpos))
              (Forall_nil_2 _))
           (proj1 (spherical_zero_range 0 (Fin 5) (Fin 1)) Hzero)).
Defined.

(** X10.  Vectorized evaluation distributes over concatenation: the
    array for two sequences of lags laid end to end is the two arrays
    laid end to end. *)
Theorem variogram_concatenation (func : num -> res num)
  (hs1 hs2 gs1 gs2 : list num) :
  variogram func (Sequence hs1) = Ok (Array gs1) ->
  variogram func (Sequence hs2) = Ok (Array gs2) ->
  variogram func (Sequence (hs1 ++ hs2)) = Ok (Array (gs1 ++ gs2)).
Proof.
  rewrite !variogram_Sequence. apply Forall2_app.
Qed.

Lemma variogram_concatenation_witness :
  Decorated.spherical (Sequence ([Fin 0] ++ [Fin 2; Fin 3]))
    (Fin 2) (Fin 1) (Fin 0)
  = Ok (Array ([Fin 0] ++ [Fin (0 + 1); Fin (0 + 1)])).
Proof.
  assert (0 < 2)%R as Hr by lra.
  assert (2 <= 2)%R as H2 by lra.
  assert (2 <= 3)%R as H3 by lra.
  apply (variogram_concatenation
           (fun h => spherical h (Fin 2) (Fin 1) (Fin 0))).
  - apply variogram_Sequence. repeat constructor.
    now apply spherical_zero.
  - apply variogram_Sequence. repeat constructor.
    + now apply spherical_sill.
    + now apply spherical_sill.
Defined.

End DecoratorExtras.

(* ===================================================================== *)
(** ** Further properties of the adapter *)
(* ===================================================================== *)

Section AdapterExtras.
Import Py Gstools Notions Inputs.

Lemma setdefault_lookup_eq {V : Type} (key : string) (v : V)
  (d : gmap string V) :
  d !! key = None -> setdefault key v d !! key = Some v.
Proof.
  intros H. unfold setdefault. rewrite H. apply lookup_insert_eq.
Qed.

Lemma setdefault_dom {V : Type} (key : string) (v : V) (d : gmap string V) :
  dom (setdefault key v d) = dom d ∪ {[key]}.
Proof.
  unfold setdefault. destruct (d !! key) eqn:Hk.
  - apply elem_of_dom_2 in Hk. apply set_eq. intros x.
    rewrite elem_of_union, elem_of_singleton.
    split; [tauto | intros [Hx | ->]; assumption].
  - rewrite dom_insert_L. apply set_eq. intros x.
    rewrite !elem_of_union, elem_of_singleton. tauto.
Qed.

Lemma base_kwargs_dom (sill nugget er : num) :
  dom (base_kwargs sill nugget er) = {["var"; "len_scale"; "nugget"]}.
Proof.
  unfold base_kwargs. rewrite !dom_insert_L, dom_singleton_L. set_solver.
Qed.

(** X11.  The shape parameter reaches GSTools under GSTools' name for it:
    unless the caller passes the keyword, the model of a stable variogram
    gets alpha = shape and that of a matern variogram nu = smoothness. *)
Theorem shape_parameters_renamed (gs : gstools) (v : Variogram)
  (kw : gmap string pyval) (registry : gmap string entry)
  (sill nugget er : num) :
  gstools_ok gs -> registry_ok registry ->
  params (describe v) !! "sill" = Some sill ->
  params (describe v) !! "nugget" = Some nugget ->
  params (describe v) !! "effective_range" = Some er ->
  let result := (skgstat_to_gstools (Some gs) v kw registry).1 in
  (name (describe v) = "stable" ->
   forall s, params (describe v) !! "shape" = Some s -> s <> Fin 0 ->
             kw !! "alpha" = None ->
             final_keyword result "alpha" (VFloat s)) /\
  (name (describe v) = "matern" ->
   forall s, params (describe v) !! "smoothness" = Some s ->
             kw !! "nu" = None ->
             final_keyword result "nu" (VFloat s)).
Proof.
  intros Hgs Hreg Hs Hn Her result. split.
  - intros Hname s Hshape Hs0 Hkw.
    eapply final_keyword_union.
    + exact (translate_stable gs v kw registry sill nugget er Hgs Hreg
               Hs Hn Her s Hname Hshape Hs0).
    + now apply setdefault_lookup_None.
    + apply lookup_insert_eq.
  - intros Hname s Hsmooth Hkw.
    eapply final_keyword_union.
    + exact (translate_matern gs v kw registry sill nugget er Hgs Hreg
               Hs Hn Her s Hname Hsmooth).
    + now apply setdefault_lookup_None.
    + apply lookup_insert_eq.
Qed.

Lemma shape_parameters_renamed_witness :
  final_keyword
    (skgstat_to_gstools (Some (gstools_with "1.3.0")) stable_variogram ∅
       MODEL_MAP).1
    "alpha" (VFloat (Fin 2)).
Proof.
  assert (Fin 2 <> Fin 0) as Hne by (intros [= H]; lra).
  exact (proj1 (shape_parameters_renamed (gstools_with "1.3.0")
                  stable_variogram ∅ MODEL_MAP (Fin 6) (Fin 1) (Fin 10)
                  gstools_1_3_ok registry_ok_MODEL_MAP
                  eq_refl eq_refl eq_refl)
           eq_refl (Fin 2) eq_refl Hne eq_refl).
Defined.

(** X12.  Unless the caller passes [dim], the model gets the variogram's
    own dimension. *)
Theorem dim_defaults_to_variogram (gs : gstools) (v : Variogram)
  (kw : gmap string pyval) (registry : gmap string entry) :
  gstools_ok gs -> registry_ok registry -> complete (describe v) ->
  kw !! "dim" = None ->
  final_keyword (skgstat_to_gstools (Some gs) v kw registry).1
    "dim" (VInt (dim v)).
Proof.
  intros Hgs Hreg Hc Hkw.
  pose proof Hc as (_ & [sill Hs] & [nugget Hn] & [er Her] & _).
  destruct (translate_complete gs v kw registry sill nugget er
              Hgs Hreg Hs Hn Her Hc) as (c & r & shape & Hres & _).
  eexists. split; [exact Hres |]. simpl.
  apply lookup_union_Some_l. now apply setdefault_lookup_eq.
Qed.

Lemma dim_defaults_to_variogram_witness :
  gstools_ok (gstools_with "1.3.0") /\
  registry_ok MODEL_MAP /\
  complete (describe stable_variogram) /\
  final_keyword
    (skgstat_to_gstools (Some (gstools_with "1.3.0")) stable_variogram ∅
       MODEL_MAP).1
    "dim" (VInt 2).
Proof.
  split; [exact gstools_1_3_ok |]. split; [exact registry_ok_MODEL_MAP |].
  split; [exact stable_complete |].
  exact (dim_defaults_to_variogram (gstools_with "1.3.0") stable_variogram
           ∅ MODEL_MAP gstools_1_3_ok registry_ok_MODEL_MAP stable_complete
           eq_refl).
Defined.

(** X13.  For a complete record of a registered family the model is of
    the class the registry names, and its keywords are the caller's plus
    dim, var, len_scale, nugget and rescale, plus alpha for stable or nu
    for matern, and no others. *)
Theorem model_class_and_keyword_set (gs : gstools) (v : Variogram)
  (kw : gmap string pyval) (registry : gmap string entry) :
  gstools_ok gs -> registry_ok registry -> complete (describe v) ->
  exists m e0,
    (skgstat_to_gstools (Some gs) v kw registry).1 = Ok m /\
    MODEL_MAP !! name (describe v) = Some e0 /\
    cls m = gs_cls e0 /\
    dom (kwargs m)
    = dom kw ∪ {["dim"; "var"; "len_scale"; "nugget"; "rescale"]}
        ∪ shape_keywords (name (describe v)).
Proof.
  intros Hgs Hreg Hc.
  pose proof Hc as ([e0 He0] & [sill Hs] & [nugget Hn] & [er Her]
                    & Hstable & Hmatern).
  destruct (MODEL_MAP_lookup_Some _ e0 He0)
    as [[Hname Hf] | [[Hname Hf] | [[Hname Hf] | [[Hname Hf]
        | [[Hname Hf] | [Hname Hf]]]]]].
  1-4: eexists _, e0;
       (split; [exact (translate_plain gs v kw registry sill nugget er
                         Hgs Hreg Hs Hn Her e0 _ _ He0 Hf) |]);
       (split; [exact He0 |]);
       (split; [now rewrite <- (fill_defaults_gs_cls e0), Hf |]);
       simpl;
       rewrite dom_union_L, setdefault_dom, dom_insert_L, base_kwargs_dom,
         Hname;
       change (shape_keywords _) with (∅ : gset string);
       apply set_eq; intros x; set_unfold; tauto.
  - destruct (Hstable Hname) as (s & Hshape & Hs0).
    eexists _, e0.
    split; [exact (translate_stable gs v kw registry sill nugget er
                     Hgs Hreg Hs Hn Her s Hname Hshape Hs0) |].
    split; [exact He0 |].
    split; [now rewrite <- (fill_defaults_gs_cls e0), Hf |].
    simpl.
    rewrite dom_union_L, setdefault_dom, !dom_insert_L, base_kwargs_dom,
      Hname.
    change (shape_keywords _) with ({["alpha"]} : gset string).
    apply set_eq; intros x; set_unfold; tauto.
  - destruct (Hmatern Hname) as (s & Hsmooth).
    eexists _, e0.
    split; [exact (translate_matern gs v kw registry sill nugget er
                     Hgs Hreg Hs Hn Her s Hname Hsmooth) |].
    split; [exact He0 |].
    split; [now rewrite <- (fill_defaults_gs_cls e0), Hf |].
    simpl.
    rewrite dom_union_L, setdefault_dom, !dom_insert_L, base_kwargs_dom,
      Hname.
    change (shape_keywords _) with ({["nu"]} : gset string).
    apply set_eq; intros x; set_unfold; tauto.
Qed.

Lemma model_class_and_keyword_set_witness :
  gstools_ok (gstools_with "1.3.0") /\
  registry_ok MODEL_MAP /\
  complete (describe stable_variogram) /\
  exists m e0,
    (skgstat_to_gstools (Some (gstools_with "1.3.0")) stable_variogram ∅
       MODEL_MAP).1 = Ok m /\
    MODEL_MAP !! "stable" = Some e0 /\
    cls m = gs_cls e0 /\
    dom (kwargs m)
    = dom (∅ : gmap string pyval)
        ∪ {["dim"; "var"; "len_scale"; "nugget"; "rescale"]}
        ∪ shape_keywords "stable".
Proof.
  split; [exact gstools_1_3_ok |]. split; [exact registry_ok_MODEL_MAP |].
  split; [exact stable_complete |].
  exact (model_class_and_keyword_set (gstools_with "1.3.0") stable_variogram
           ∅ MODEL_MAP gstools_1_3_ok registry_ok_MODEL_MAP stable_complete).
Defined.

End AdapterExtras.

Section LateFailures.
Import Py Gstools Notions Inputs.

Variable gs : gstools.
Variable v : Variogram.
Variable kw : gmap string pyval.
Variable registry : gmap string entry.
Variable e0 : entry.

Hypothesis gate_ok : version_gate gs = Ok tt.
Hypothesis reg_ok : registry_ok registry.
Hypothesis registered : MODEL_MAP !! name (describe v) = Some e0.

(** Past the guards the outcome is that of [build] on the filled entry,
    and the filled entry is in the registry whatever [build] does. *)
Lemma translate_build :
  skgstat_to_gstools (Some gs) v kw registry
  = (build gs (describe v) (setdefault "dim" (VInt (dim v)) kw)
       (fill_defaults e0),
     <[name (describe v) := fill_defaults e0]> registry).
Proof using gate_ok reg_ok registered.
  destruct (registry_ok_Some registry _ e0 reg_ok registered)
    as (e & He & Hfill).
  rewrite (translate_step gs v kw registry e gate_ok He).
  now rewrite Hfill.
Qed.

Lemma build_missing (d : Describe) (kw' : gmap string pyval) (e : entry) :
  (params d !! "sill" = None ->
   build gs d kw' e = Raise (KeyError "sill")) /\
  (is_Some (params d !! "sill") -> params d !! "nugget" = None ->
   build gs d kw' e = Raise (KeyError "nugget")) /\
  (is_Some (params d !! "sill") -> is_Some (params d !! "nugget") ->
   params d !! "effective_range" = None ->
   build gs d kw' e = Raise (KeyError "effective_range")).
Proof.
  unfold build, getitem. split; [| split].
  - now intros ->.
  - now intros [? ->] ->.
  - now intros [? ->] [? ->] ->.
Qed.

Lemma build_rescale_fails (d : Describe) (kw' : gmap string pyval)
  (e : entry) (x : exn) :
  is_Some (params d !! "sill") -> is_Some (params d !! "nugget") ->
  is_Some (params d !! "effective_range") ->
  resolve_rescale d e = Raise x ->
  build gs d kw' e = Raise x.
Proof.
  intros [? Hs] [? Hn] [? Her] Hr. unfold build, getitem.
  now rewrite Hs, Hn, Her, !bind_Ok, Hr.
Qed.

End LateFailures.

Section LateFailureProperties.
Import Py Gstools Notions Inputs.

(** X14.  A describe record that lacks a key fails only after the
    registry has been written.  For a registered family the call raises
    KeyError for the first of sill, nugget, effective_range that is
    missing, then for a missing shape (stable) or smoothness (matern);
    in each case the entry of that family is left with its defaults
    filled in. *)
Theorem incomplete_record_fails_after_registry_write (gs : gstools)
  (v : Variogram) (kw : gmap string pyval) (registry : gmap string entry)
  (e0 : entry) :
  version_gate gs = Ok tt -> registry_ok registry ->
  MODEL_MAP !! name (describe v) = Some e0 ->
  let d := describe v in
  let fails (x : exn) :=
    skgstat_to_gstools (Some gs) v kw registry
    = (Raise x, <[name d := fill_defaults e0]> registry) in
  let base :=
    is_Some (params d !! "sill") /\ is_Some (params d !! "nugget") /\
    is_Some (params d !! "effective_range") in
  (params d !! "sill" = None -> fails (KeyError "sill")) /\
  (is_Some (params d !! "sill") -> params d !! "nugget" = None ->
   fails (KeyError "nugget")) /\
  (is_Some (params d !! "sill") -> is_Some (params d !! "nugget") ->
   params d !! "effective_range" = None ->
   fails (KeyError "effective_range")) /\
  (base -> name d = "stable" -> params d !! "shape" = None ->
   fails (KeyError "shape")) /\
  (base -> name d = "matern" -> params d !! "smoothness" = None ->
   fails (KeyError "smoothness")).
Proof.
  intros Hgate Hreg He0 d fails base. subst fails base. cbv beta.
  rewrite (translate_build gs v kw registry e0 Hgate Hreg He0).
  fold d.
  destruct (build_missing gs d (setdefault "dim" (VInt (dim v)) kw)
              (fill_defaults e0)) as (Hsill & Hnug & Hrange).
  split; [intros H; now rewrite Hsill |].
  split; [intros H1 H2; now rewrite Hnug |].
  split; [intros H1 H2 H3; now rewrite Hrange |].
  assert (forall n, name d = n ->
             n = "stable" \/ n = "matern" ->
             resolve_rescale d (fill_defaults e0)
             = if String.eqb n "stable" then stable_rescale d
               else matern_rescale d) as Hcall.
  { intros n Hname Hn. subst d.
    destruct (MODEL_MAP_lookup_Some _ e0 He0)
      as [[Hn' Hf] | [[Hn' Hf] | [[Hn' Hf] | [[Hn' Hf]
          | [[Hn' Hf] | [Hn' Hf]]]]]];
      rewrite Hn' in Hname; subst n;
      destruct Hn as [Hn | Hn]; try discriminate Hn;
      now rewrite Hf. }
  split.
  - intros (H1 & H2 & H3) Hname Hshape. f_equal.
    apply build_rescale_fails; try assumption.
    rewrite (Hcall "stable" Hname) by now left.
    unfold stable_rescale, getitem. now rewrite Hshape.
  - intros (H1 & H2 & H3) Hname Hsmooth. f_equal.
    apply build_rescale_fails; try assumption.
    rewrite (Hcall "matern" Hname) by now right.
    unfold matern_rescale, getitem. now rewrite Hsmooth.
Qed.

Lemma incomplete_record_fails_after_registry_write_witness :
  skgstat_to_gstools (Some (gstools_with "1.3.0"))
    {| dim := 2; describe := describe_of "stable" [] |} ∅ MODEL_MAP
  = (Raise (KeyError "shape"),
     <["stable" :=
         fill_defaults
           {| gs_cls := "Stable"; arg_map := Some [("alpha", "shape")];
              rescale := Some (Callable stable_rescale) |}]> MODEL_MAP).
Proof.
  assert (is_Some (Some (Fin 6)) /\ is_Some (Some (Fin 1))
          /\ is_Some (Some (Fin 10))) as Hbase by (repeat split; eauto).
  exact (proj1 (proj2 (proj2 (proj2
           (incomplete_record_fails_after_registry_write
              (gstools_with "1.3.0")
              {| dim := 2; describe := describe_of "stable" [] |}
              ∅ MODEL_MAP _ eq_refl registry_ok_MODEL_MAP eq_refl))))
           Hbase eq_refl eq_refl).
Defined.

End LateFailureProperties.

Section CallSequences.
Import Py Gstools Notions Inputs.

(** Every entry is the one [MODEL_MAP] was defined with, or that entry
    with its defaults filled in. *)
Lemma translate_keeps_entries (gs : option gstools) (v : Variogram)
  (kw : gmap string pyval) (registry : gmap string entry) :
  (forall n, registry !! n = MODEL_MAP !! n \/
             registry !! n = fill_defaults <$> MODEL_MAP !! n) ->
  forall n,
    (skgstat_to_gstools gs v kw registry).2 !! n = MODEL_MAP !! n \/
    (skgstat_to_gstools gs v kw registry).2 !! n
    = fill_defaults <$> MODEL_MAP !! n.
Proof.
  intros Hinv n.
  destruct (translate_registry gs v kw registry) as [-> | (e & He & ->)];
    [apply Hinv |].
  destruct (decide (n = name (describe v))) as [-> | Hne].
  - right. rewrite lookup_insert_eq.
    destruct (Hinv (name (describe v))) as [H | H]; rewrite He in H.
    + now rewrite <- H.
    + destruct (MODEL_MAP !! name (describe v)) as [e0 |];
        [| discriminate].
      injection H as ->. simpl. now rewrite fill_defaults_idem.
  - rewrite lookup_insert_ne by congruence. apply Hinv.
Qed.

Lemma registry_after_entries (calls : list call)
  (registry : gmap string entry) :
  (forall n, registry !! n = MODEL_MAP !! n \/
             registry !! n = fill_defaults <$> MODEL_MAP !! n) ->
  forall n,
    registry_after calls registry !! n = MODEL_MAP !! n \/
    registry_after calls registry !! n = fill_defaults <$> MODEL_MAP !! n.
Proof.
  revert registry. induction calls as [| [[gs v] kw] calls IH];
    intros registry Hinv; simpl; [assumption |].
  apply IH. now apply translate_keeps_entries.
Qed.

Lemma entries_registry_ok (registry : gmap string entry) :
  (forall n, registry !! n = MODEL_MAP !! n \/
             registry !! n = fill_defaults <$> MODEL_MAP !! n) ->
  registry_ok registry.
Proof.
  intros Hinv. apply map_eq. intros n. rewrite !lookup_fmap.
  destruct (Hinv n) as [-> | ->]; [reflexivity |].
  destruct (MODEL_MAP !! n); simpl; [| reflexivity].
  now rewrite fill_defaults_idem.
Qed.

(** On any registry that is [MODEL_MAP] up to filled defaults a call
    returns what it returns on [MODEL_MAP] itself. *)
Lemma result_on_ok_registry (gs : option gstools) (v : Variogram)
  (kw : gmap string pyval) (registry : gmap string entry) :
  registry_ok registry ->
  (skgstat_to_gstools gs v kw registry).1
  = (skgstat_to_gstools gs v kw MODEL_MAP).1.
Proof.
  intros Hok. unfold skgstat_to_gstools.
  destruct gs as [gs |]; [| reflexivity].
  destruct (version_gate gs); [| reflexivity].
  destruct (MODEL_MAP !! name (describe v)) as [e0 |] eqn:He0.
  - destruct (registry_ok_Some registry _ e0 Hok He0) as (e & -> & Hfill).
    simpl. fold (fill_defaults e). fold (fill_defaults e0).
    now rewrite Hfill.
  - now rewrite (registry_ok_None registry _ Hok He0).
Qed.

(** X15.  Calls do not interfere.  After any series of calls, whatever
    their arguments and outcomes, the registry holds exactly the six
    families, each entry as first defined or with its defaults filled in,
    and a call returns the model or raises the exception it would on the
    registry as first defined. *)
Theorem calls_do_not_interfere (calls : list call) (gs : option gstools)
  (v : Variogram) (kw : gmap string pyval) :
  (skgstat_to_gstools gs v kw (registry_after calls MODEL_MAP)).1
  = (skgstat_to_gstools gs v kw MODEL_MAP).1 /\
  dom (registry_after calls MODEL_MAP)
  = ({["spherical"; "exponential"; "gaussian"; "cubic"; "stable";
       "matern"]} : gset string) /\
  forall n,
    registry_after calls MODEL_MAP !! n = MODEL_MAP !! n \/
    registry_after calls MODEL_MAP !! n
    = fill_defaults <$> MODEL_MAP !! n.
Proof.
  assert (forall n,
             registry_after calls MODEL_MAP !! n = MODEL_MAP !! n \/
             registry_after calls MODEL_MAP !! n
             = fill_defaults <$> MODEL_MAP !! n) as Hinv
    by (apply registry_after_entries; now left).
  pose proof (entries_registry_ok _ Hinv) as Hok.
  split; [now apply result_on_ok_registry |]. split; [| exact Hinv].
  rewrite <- (dom_fmap_L fill_defaults), Hok, dom_fmap_L.
  unfold MODEL_MAP. simpl. rewrite !dom_insert_L, dom_empty_L.
  set_solver.
Qed.

End CallSequences.

(** * The version gate reads numbers *)

Section VersionGate.
Import Py Gstools Notions.

Lemma digit_char_facts (d : nat) :
  (d < 10)%nat ->
  digit_of (digit_char d) = Some (Z.of_nat d) /\
  Ascii.eqb (digit_char d) "_" = false /\
  Ascii.eqb (digit_char d) "." = false /\
  Ascii.eqb (digit_char d) "-" = false /\
  Ascii.eqb (digit_char d) "+" = false /\
  is_space (digit_char d) = false.
Proof.
  intros Hd.
  do 10 (destruct d as [| d]; [repeat split; vm_compute; reflexivity |]).
  lia.
Qed.

Lemma digits_cons (acc : Z) (f : bool) (c : ascii) (cs : list ascii) :
  digits acc f (c :: cs)
  = if Ascii.eqb c "_"
    then (if f then digits acc false cs else None)
    else match digit_of c with
         | Some d => digits (10 * acc + d)%Z true cs
         | None => None
         end.
Proof. reflexivity. Qed.

Lemma digits_numeral (ds : list nat) (acc : Z) (f : bool) :
  Forall (fun d => (d < 10)%nat) ds ->
  ds <> [] ->
  digits acc f (map digit_char ds)
  = Some (fold_left (fun a d => 10 * a + Z.of_nat d)%Z ds acc).
Proof.
  intros Hds. revert acc f.
  induction Hds as [| d ds Hd Hds IH]; intros acc f Hne; [congruence |].
  rewrite map_cons, digits_cons.
  destruct (digit_char_facts d Hd) as (-> & -> & _).
  destruct ds as [| d' ds']; [reflexivity |].
  apply IH. discriminate.
Qed.

Lemma lstrip_cons (c : ascii) (cs : list ascii) :
  lstrip (c :: cs) = if is_space c then lstrip cs else c :: cs.
Proof. reflexivity. Qed.

Lemma lstrip_digits (ds : list nat) :
  Forall (fun d => (d < 10)%nat) ds ->
  lstrip (map digit_char ds) = map digit_char ds.
Proof.
  intros [| d ds' Hd _]; [reflexivity |].
  rewrite map_cons, lstrip_cons.
  now destruct (digit_char_facts d Hd) as (_ & _ & _ & _ & _ & ->).
Qed.

Lemma strip_digits (ds : list nat) :
  Forall (fun d => (d < 10)%nat) ds ->
  strip (map digit_char ds) = map digit_char ds.
Proof.
  intros Hds. unfold strip.
  rewrite lstrip_digits by assumption.
  rewrite <- map_rev, lstrip_digits by now apply Forall_rev.
  now rewrite map_rev, rev_involutive.
Qed.

(** [int] reads a numeral back as its value. *)
Lemma int_numeral (ds : list nat) :
  ds <> [] -> Forall (fun d => (d < 10)%nat) ds ->
  int (numeral ds) = Ok (number ds).
Proof.
  intros Hne Hds. unfold int, numeral, number.
  rewrite list_ascii_of_string_of_list_ascii, strip_digits by assumption.
  pose proof (digits_numeral ds 0 false Hds Hne) as Hrun.
  destruct Hds as [| d ds Hd Hds]; [contradiction |].
  rewrite map_cons in *.
  destruct (digit_char_facts d Hd) as (_ & _ & _ & -> & -> & _).
  now rewrite Hrun.
Qed.

Lemma split_cons (sep c : ascii) (s : string) :
  split sep (String c s)
  = if Ascii.eqb c sep then EmptyString :: split sep s
    else match split sep s with
         | w :: ws => String c w :: ws
         | [] => [String c EmptyString]
         end.
Proof. reflexivity. Qed.

Lemma numeral_cons (d : nat) (ds : list nat) :
  numeral (d :: ds) = String (digit_char d) (numeral ds).
Proof. reflexivity. Qed.

Lemma split_numeral (ds : list nat) :
  Forall (fun d => (d < 10)%nat) ds ->
  split "." (numeral ds) = [numeral ds].
Proof.
  induction 1 as [| d ds Hd _ IH]; [reflexivity |].
  rewrite numeral_cons, split_cons, IH.
  now destruct (digit_char_facts d Hd) as (_ & _ & -> & _).
Qed.

Lemma split_numeral_dot (ds : list nat) (s : string) :
  Forall (fun d => (d < 10)%nat) ds ->
  split "." (String.append (numeral ds) (String "." s))
  = numeral ds :: split "." s.
Proof.
  induction 1 as [| d ds Hd _ IH]; [reflexivity |].
  rewrite numeral_cons.
  change (String.append (String (digit_char d) (numeral ds)) (String "." s))
    with (String (digit_char d)
            (String.append (numeral ds) (String "." s))).
  rewrite split_cons, IH.
  now destruct (digit_char_facts d Hd) as (_ & _ & -> & _).
Qed.

Lemma append_empty (s : string) : String.append s EmptyString = s.
Proof.
  induction s as [| c s IH]; [reflexivity |].
  change (String.append (String c s) EmptyString)
    with (String c (String.append s EmptyString)).
  now rewrite IH.
Qed.

(** X16.  The gate compares numbers, not text.  For a version string
    whose first two dot-separated fields are decimal numerals M and m,
    whatever follows, the gate raises the ValueError that asks for v1.3
    exactly when M < 1, or M = 1 and m < 3.  A version with a single
    numeral M and no dot is refused exactly when M <= 1. *)
Theorem version_gate_compares_numbers (major minor : list nat)
  (attrs : list string) :
  major <> [] -> minor <> [] ->
  Forall (fun d => (d < 10)%nat) major ->
  Forall (fun d => (d < 10)%nat) minor ->
  let refused : res unit :=
    Raise (ValueError "to_gstools: GSTools v1.3 or greater requiered.") in
  let M := number major in
  let m := number minor in
  (forall tail,
      tail = EmptyString \/ (exists rest, tail = String "." rest) ->
      version_gate
        {| version :=
             String.append (numeral major)
               (String "." (String.append (numeral minor) tail));
           attributes := attrs |}
      = if ((M <? 1) || (M =? 1) && (m <? 3))%Z then refused else Ok tt) /\
  version_gate {| version := numeral major; attributes := attrs |}
  = if (M <=? 1)%Z then refused else Ok tt.
Proof.
  intros Hne1 Hne2 Hd1 Hd2 refused M m. split.
  - intros tail Htail. unfold version_gate. cbn [version].
    rewrite split_numeral_dot by assumption.
    assert (exists ws, split "." (String.append (numeral minor) tail)
                       = numeral minor :: ws) as [ws ->].
    { destruct Htail as [-> | [rest ->]].
      - exists []. rewrite append_empty. now apply split_numeral.
      - eexists. now apply split_numeral_dot. }
    change (take 2 (numeral major :: numeral minor :: ws))
      with [numeral major; numeral minor].
    cbn [mapM]. rewrite !int_numeral by assumption. fold M m.
    cbn [mbind res_bind mret res_ret list_lt].
    destruct (M =? 1)%Z eqn:HM, (M <? 1)%Z eqn:HM', (m <? 3)%Z eqn:Hm,
      (m =? 3)%Z eqn:Hm'; cbn [orb andb]; try reflexivity; lia.
  - unfold version_gate. cbn [version].
    rewrite split_numeral by assumption. cbn [take mapM].
    rewrite int_numeral by assumption. fold M.
    cbn [mbind res_bind mret res_ret list_lt].
    destruct (M =? 1)%Z eqn:HM, (M <? 1)%Z eqn:HM', (M <=? 1)%Z eqn:HM'';
      try reflexivity; lia.
Qed.

Lemma version_gate_compares_numbers_witness :
  version_gate {| version := "1.10.2"; attributes := [] |} = Ok tt /\
  version_gate {| version := "1"; attributes := [] |}
  = Raise (ValueError "to_gstools: GSTools v1.3 or greater requiered.").
Proof.
  assert ([1%nat] <> []) as Hne1 by discriminate.
  assert ([1%nat; 0%nat] <> []) as Hne2 by discriminate.
  assert (Forall (fun d => (d < 10)%nat) [1%nat]) as Hd1
    by (repeat constructor).
  assert (Forall (fun d => (d < 10)%nat) [1%nat; 0%nat]) as Hd2
    by (repeat constructor).
  pose proof (version_gate_compares_numbers [1%nat] [1%nat; 0%nat] []
                Hne1 Hne2 Hd1 Hd2) as [Htwo Hone].
  split; [| exact Hone].
  exact (Htwo ".2"%string (or_intror (ex_intro _ "2"%string eq_refl))).
Defined.

End VersionGate.
